(** * SysGraph rule engine: field resolver, condition evaluator, rule
      orchestrator and remote rule loader (src/rules/__init__.py)

    The Python code is embedded as executable Rocq functions.  Python values
    are an inductive type, [float] is IEEE binary64 (the kernel's primitive
    floats), exceptions are an explicit [outcome] type, and a [try]/[except]
    is a [catch]. *)

From Stdlib Require Import ZArith List String Ascii Bool Lia Floats.
From Stdlib Require DecimalString.
Set Warnings "-register-all".
Import ListNotations.
Local Open Scope string_scope.
Local Open Scope Z_scope.

(** ** Exceptions *)

Inductive exn : Type :=
| TypeError
| ValueError
| OverflowError
| AttributeError
| ValidationError
| OSError
| ZeroDivisionError.

Inductive outcome (A : Type) : Type :=
| Ret (a : A)
| Raise (e : exn).
Arguments Ret {A} a.
Arguments Raise {A} e.

Definition bind {A B : Type} (m : outcome A) (k : A -> outcome B) : outcome B :=
  match m with
  | Ret a => k a
  | Raise e => Raise e
  end.

(** [try: m except Exception: h]. *)
Definition catch {A : Type} (m : outcome A) (h : exn -> outcome A) : outcome A :=
  match m with
  | Ret a => Ret a
  | Raise e => h e
  end.

Declare Scope outcome_scope.
Delimit Scope outcome_scope with outcome.
Notation "x <- m ;; k" := (bind m (fun x => k))
  (at level 61, m at next level, right associativity) : outcome_scope.
Local Open Scope outcome_scope.

Definition returns {A : Type} (m : outcome A) : Prop := exists a, m = Ret a.

(** ** Python values *)

Inductive value : Type :=
| VNone
| VBool (b : bool)
| VInt (n : Z)
| VFloat (f : float)
| VStr (s : string)
| VList (l : list value)
| VDict (d : list (string * value)).

Definition dict := list (string * value).

Definition is_list (v : value) : bool :=
  match v with VList _ => true | _ => false end.

Definition is_dict (v : value) : bool :=
  match v with VDict _ => true | _ => false end.


(** [key in d] and [d[key]] on a mapping with string keys. *)
Fixpoint dict_lookup (d : dict) (key : string) : option value :=
  match d with
  | [] => None
  | (k, v) :: rest => if String.eqb k key then Some v else dict_lookup rest key
  end.

(** [d.get(key, default)] for a string key. *)
Definition dict_get (d : dict) (key : string) (default : value) : value :=
  match dict_lookup d key with
  | Some v => v
  | None => default
  end.

(** ** String operations used on field paths *)

Definition drop_string (n : nat) (s : string) : string :=
  substring n (String.length s - n) s.

(** [sep in s] together with [s.split(sep, 1)]: the text before and after the
    leftmost occurrence of [sep], or [None] when [sep] does not occur. *)
Fixpoint split_first (sep s : string) : option (string * string) :=
  if String.prefix sep s
  then Some (EmptyString, drop_string (String.length sep) s)
  else match s with
       | EmptyString => None
       | String c s' =>
           match split_first sep s' with
           | Some (before, after) => Some (String c before, after)
           | None => None
           end
       end.

(** [sub in s] for two strings. *)
Definition str_contains (sub s : string) : bool :=
  match split_first sub s with Some _ => true | None => false end.

(** [s.split(c)] for a one-character separator: never empty. *)
Fixpoint split_char (c : ascii) (s : string) : list string :=
  match s with
  | EmptyString => [EmptyString]
  | String a s' =>
      if Ascii.eqb a c then EmptyString :: split_char c s'
      else match split_char c s' with
           | [] => [String a EmptyString]
           | w :: ws => String a w :: ws
           end
  end.

Definition wildcard : string := "[*]".

(** ** Field resolver *)

(** [_get_nested_value]: follow the dot-separated keys; a missing key or a
    non-mapping on the way gives [None]. *)
Fixpoint walk_keys (keys : list string) (current : value) : value :=
  match keys with
  | [] => current
  | key :: rest =>
      match current with
      | VDict d =>
          match dict_lookup d key with
          | Some v => walk_keys rest v
          | None => VNone
          end
      | _ => VNone
      end
  end.

Definition _get_nested_value (data : value) (path : string) : value :=
  walk_keys (split_char "." path) data.

(** [array_field[1:]] when [array_field.startswith('.')]. *)
Definition strip_dot (array_field : string) : string :=
  match array_field with
  | String "." rest => rest
  | _ => array_field
  end.

(** The body of [_get_field_value] for a string path. *)
Definition get_field_value_str (data : value) (field_path : string) : value :=
  match split_first wildcard field_path with
  | Some (base_path, array_field) =>
      match _get_nested_value data base_path with
      | VList base_value =>
          let array_field := strip_dot array_field in
          if negb (String.eqb array_field "")
          then VList (map (fun item => _get_nested_value item array_field)
                          (filter is_dict base_value))
          else VList base_value
      | _ => VList []
      end
  | None => _get_nested_value data field_path
  end.

(** [_get_field_value]: the field path is whatever the condition record
    holds; on anything but a string the membership test or [split] raises and
    the handler returns [None]. *)
Definition _get_field_value (data : value) (field_path : value) : value :=
  match field_path with
  | VStr p => get_field_value_str data p
  | _ => VNone
  end.

(** ** Numbers *)

(** [float(n)] for an integer: round to nearest, ties to even; an integer
    too large for a binary64 raises [OverflowError]. *)
Definition float_of_Z (n : Z) : outcome float :=
  match binary_normalize prec emax n 0 false with
  | S754_infinity _ => Raise OverflowError
  | sf => Ret (SF2Prim sf)
  end.

Definition exact_of_Z (n : Z) : spec_float :=
  match n with
  | Z0 => S754_zero false
  | Zpos p => S754_finite false p 0
  | Zneg p => S754_finite true p 0
  end.

(** [a / b] on two integers: the correctly rounded quotient. *)
Definition int_truediv (a b : Z) : outcome float :=
  if b =? 0 then Raise ZeroDivisionError
  else match SFdiv prec emax (exact_of_Z a) (exact_of_Z b) with
       | S754_infinity _ => Raise OverflowError
       | sf => Ret (SF2Prim sf)
       end.

(** Python compares an integer with a float by value, without rounding the
    integer.  [None] when the float is a NaN. *)
Definition Z_compare_float (n : Z) (f : float) : option comparison :=
  match Prim2SF f with
  | S754_nan => None
  | S754_zero _ => Some (n ?= 0)
  | S754_infinity true => Some Gt
  | S754_infinity false => Some Lt
  | S754_finite s m e =>
      let mz := if s then Zneg m else Zpos m in
      Some (if 0 <=? e then n ?= mz * 2 ^ e else n * 2 ^ (- e) ?= mz)
  end.

(** A number is an [int] (a [bool] is one) or a [float]. *)
Inductive number : Type :=
| NInt (n : Z)
| NFloat (f : float).

Definition as_number (v : value) : option number :=
  match v with
  | VBool b => Some (NInt (if b then 1 else 0))
  | VInt n => Some (NInt n)
  | VFloat f => Some (NFloat f)
  | _ => None
  end.

(** [isinstance(v, (int, float)) and v is not None] *)
Definition is_number (v : value) : bool :=
  match as_number v with Some _ => true | None => false end.

Definition num_gt (a b : number) : bool :=
  match a, b with
  | NInt x, NInt y => y <? x
  | NInt x, NFloat g =>
      match Z_compare_float x g with Some Gt => true | _ => false end
  | NFloat f, NInt y =>
      match Z_compare_float y f with Some Lt => true | _ => false end
  | NFloat f, NFloat g => (g <? f)%float
  end.

Definition num_eq (a b : number) : bool :=
  match a, b with
  | NInt x, NInt y => x =? y
  | NInt x, NFloat g =>
      match Z_compare_float x g with Some Eq => true | _ => false end
  | NFloat f, NInt y =>
      match Z_compare_float y f with Some Eq => true | _ => false end
  | NFloat f, NFloat g => (f =? g)%float
  end.

(** [a > t] where [a] is a number: ordering against anything but a number
    raises [TypeError]. *)
Definition py_gt (a : number) (t : value) : outcome bool :=
  match as_number t with
  | Some b => Ret (num_gt a b)
  | None => Raise TypeError
  end.

(** The integers of a list of numbers, when it holds no float. *)
Fixpoint all_ints (xs : list number) : option (list Z) :=
  match xs with
  | [] => Some []
  | NInt n :: rest =>
      match all_ints rest with
      | Some zs => Some (n :: zs)
      | None => None
      end
  | NFloat _ :: _ => None
  end.

(** [a / n] for a number and an integer. *)
Definition py_truediv (a : number) (n : Z) : outcome float :=
  match a with
  | NInt x => int_truediv x n
  | NFloat f =>
      fn <- float_of_Z n ;;
      if (fn =? 0)%float then Raise ZeroDivisionError else Ret (f / fn)%float
  end.

(** ** Truth value and equality *)

(** [bool(v)] *)
Definition py_truth (v : value) : bool :=
  match v with
  | VNone => false
  | VBool b => b
  | VInt n => negb (n =? 0)
  | VFloat f => negb (f =? 0)%float
  | VStr s => negb (String.eqb s "")
  | VList l => match l with [] => false | _ => true end
  | VDict d => match d with [] => false | _ => true end
  end.

(** [a == b] *)
Fixpoint py_eq (a b : value) {struct a} : bool :=
  match a, b with
  | VNone, VNone => true
  | VStr s, VStr t => String.eqb s t
  | VList la, VList lb =>
      (fix go (la lb : list value) {struct la} : bool :=
         match la, lb with
         | [], [] => true
         | x :: xs, y :: ys => py_eq x y && go xs ys
         | _, _ => false
         end) la lb
  | VDict da, VDict db =>
      Nat.eqb (List.length da) (List.length db) &&
      (fix go (da : list (string * value)) {struct da} : bool :=
         match da with
         | [] => true
         | (k, v) :: rest =>
             match dict_lookup db k with
             | Some w => py_eq v w
             | None => false
             end && go rest
         end) da
  | VBool x, _ =>
      match as_number b with
      | Some nb => num_eq (NInt (if x then 1 else 0)) nb
      | None => false
      end
  | VInt x, _ =>
      match as_number b with Some nb => num_eq (NInt x) nb | None => false end
  | VFloat f, _ =>
      match as_number b with Some nb => num_eq (NFloat f) nb | None => false end
  | _, _ => false
  end.

(** ** Records of the engine *)

(** [Rule]; the creation and update times carry no behaviour and are left
    out. *)
Module Rule.
Record t : Type := mk {
  rule_id : string;
  name : string;
  category : string;
  description : string;
  severity : string;
  conditions : list dict;
  actions : list dict;
  enabled : bool;
  confidence : float;
  version : string;
  author : string
}.
End Rule.

Module DiagnosisIssue.
Record t : Type := mk {
  issue_id : string;
  category : string;
  severity : string;
  title : string;
  description : string;
  recommendation : string;
  confidence : float;
  evidence : list string
}.
End DiagnosisIssue.

Module RuleExecutionResult.
Record t : Type := mk {
  rule_id : string;
  matched : bool;
  confidence : float;
  evidence : list string;
  actions_taken : list string;
  issues_found : list DiagnosisIssue.t;
  execution_time : float
}.

Definition set_execution_time (r : t) (seconds : float) : t :=
  mk (rule_id r) (matched r) (confidence r) (evidence r) (actions_taken r)
     (issues_found r) seconds.
End RuleExecutionResult.

Record RuleEngineConfiguration : Type := {
  enable_builtin_rules : bool;
  enable_remote_rules : bool;
  remote_rules_url : string;
  rules_update_interval : Z;
  rule_confidence_threshold : float
}.

(** The fields of a [RuleEngine] that the rules and their run depend on. *)
Record RuleEngine : Type := {
  config : RuleEngineConfiguration;
  builtin_rules : list Rule.t;
  remote_rules : list Rule.t
}.

(** What [_execute_action] returns: a description and, for [create_issue],
    the issue. *)
Record action_result : Type := {
  result_description : string;
  result_issue : option DiagnosisIssue.t
}.

(** ** The host: library conversions the engine calls

    What the interpreter and pydantic decide is taken as given: how a text
    reads as a float, how floats add up in [sum], how a value that is not
    [None], a [bool] or a [str] prints, which values a [str] field of a model accepts, which record
    makes a [Rule], what an exception prints as, and what the clock reads. *)

Record host : Type := {
  (** [float(s)] for a string: the float, or [ValueError] *)
  float_of_str : string -> outcome float;
  (** [sum(xs)] for numbers among which a float occurs: the float summation
      of the interpreter (plain addition from left to right up to CPython
      3.11, a compensated one from 3.12 on), or the [OverflowError] of an
      integer too large for a float *)
  float_sum : list number -> outcome float;
  (** [str(v)] for an [int], a [float], a list or a mapping *)
  str_other : value -> string;
  (** [str(e)] for an exception *)
  str_exn : exn -> string;
  (** validation of a [str] field of a pydantic model *)
  validate_str : value -> outcome string;
  (** [Rule] called on the unpacked record [rule_data]: the rule, or the
      error of the call or of the validation *)
  rule_of_record : value -> outcome Rule.t;
  (** [datetime.now().strftime('%Y%m%d_%H%M%S')] when the [i]-th action of
      the rule [rule_id] runs *)
  now_stamp : string -> nat -> string;
  (** seconds measured around the run of the rule [rule_id] *)
  elapsed : string -> float
}.

Section Evaluator.

Variable H : host.

(** [str(v)] *)
Definition py_str (v : value) : string :=
  match v with
  | VNone => "None"
  | VBool true => "True"
  | VBool false => "False"
  | VStr s => s
  | _ => str_other H v
  end.

(** [float(v)] *)
Definition to_float (v : value) : outcome float :=
  match v with
  | VNone => Raise TypeError
  | VBool b => Ret (if b then 1 else 0)%float
  | VInt n => float_of_Z n
  | VFloat f => Ret f
  | VStr s => float_of_str H s
  | VList _ => Raise TypeError
  | VDict _ => Raise TypeError
  end.

(** [operator == name] *)
Definition op_is (operator : value) (name : string) : bool :=
  match operator with
  | VStr s => String.eqb s name
  | _ => false
  end.

(** [target in text]: the left operand must be a string. *)
Definition py_in_str (target : value) (text : string) : outcome bool :=
  match target with
  | VStr t => Ret (str_contains t text)
  | _ => Raise TypeError
  end.

(** [item.get(key, default)]: only a mapping has [get]; a list or a mapping
    is not hashable; no other key than a string is in a snapshot mapping. *)
Definition item_get (item key default : value) : outcome value :=
  match item with
  | VDict d =>
      match key with
      | VStr s => Ret (dict_get d s default)
      | VList _ => Raise TypeError
      | VDict _ => Raise TypeError
      | _ => Ret default
      end
  | _ => Raise AttributeError
  end.

(** [all(not item.get(field_check, True) for item in items)] *)
Fixpoint all_not_get (field_check : value) (items : list value) : outcome bool :=
  match items with
  | [] => Ret true
  | item :: rest =>
      v <- item_get item field_check (VBool true) ;;
      if negb (py_truth v) then all_not_get field_check rest else Ret false
  end.

(** [any(item.get(field_check, False) for item in items)] *)
Fixpoint any_get (field_check : value) (items : list value) : outcome bool :=
  match items with
  | [] => Ret false
  | item :: rest =>
      v <- item_get item field_check (VBool false) ;;
      if py_truth v then Ret true else any_get field_check rest
  end.

(** [[v for v in field_value if isinstance(v, (int, float)) and v is not None]] *)
Fixpoint numeric_values (l : list value) : list number :=
  match l with
  | [] => []
  | v :: rest =>
      match as_number v with
      | Some n => n :: numeric_values rest
      | None => numeric_values rest
      end
  end.

(** [sum(xs)] on numbers: integers (and booleans) add up exactly, to an
    integer; once a float occurs the sum is the float the interpreter's
    summation gives. *)
Definition py_sum (xs : list number) : outcome number :=
  match all_ints xs with
  | Some zs => Ret (NInt (fold_left Z.add zs 0))
  | None => f <- float_sum H xs ;; Ret (NFloat f)
  end.

(** [sum(numeric_values) / len(numeric_values)] *)
Definition average (ns : list number) : outcome float :=
  s <- py_sum ns ;; py_truediv s (Z.of_nat (List.length ns)).

(** The [try] block of [_evaluate_condition]. *)
Definition evaluate_condition_body
    (field_value operator target_value field_check : value) : outcome bool :=
  if op_is operator ">" then
    a <- to_float field_value ;; b <- to_float target_value ;; Ret (b <? a)%float
  else if op_is operator "<" then
    a <- to_float field_value ;; b <- to_float target_value ;; Ret (a <? b)%float
  else if op_is operator ">=" then
    a <- to_float field_value ;; b <- to_float target_value ;; Ret (b <=? a)%float
  else if op_is operator "<=" then
    a <- to_float field_value ;; b <- to_float target_value ;; Ret (a <=? b)%float
  else if op_is operator "==" then
    Ret (py_eq field_value target_value)
  else if op_is operator "!=" then
    Ret (negb (py_eq field_value target_value))
  else if op_is operator "contains" then
    py_in_str target_value (py_str field_value)
  else if op_is operator "count" then
    match field_value with
    | VList l => py_gt (NInt (Z.of_nat (List.length l))) target_value
    | _ => Ret false
    end
  else if op_is operator "all_false" && py_truth field_check then
    match field_value with
    | VList l => all_not_get field_check l
    | _ => Ret false
    end
  else if op_is operator "none_true" && py_truth field_check then
    match field_value with
    | VList l => b <- any_get field_check l ;; Ret (negb b)
    | _ => Ret false
    end
  else if op_is operator "avg>" && is_list field_value then
    match field_value with
    | VList l =>
        match numeric_values l with
        | [] => Ret false
        | ns => avg_value <- average ns ;; py_gt (NFloat avg_value) target_value
        end
    | _ => Ret false
    end
  else
    Ret false.

(** [_evaluate_condition]: any exception of the body is logged and the
    condition is unmatched. *)
Definition _evaluate_condition
    (field_value operator target_value field_check : value) : outcome bool :=
  catch (evaluate_condition_body field_value operator target_value field_check)
        (fun _ => Ret false).

End Evaluator.

(** ** Rule store and orchestrator *)

Definition get_all_rules (self : RuleEngine) : list Rule.t :=
  let all_rules :=
    ((if enable_builtin_rules (config self) then builtin_rules self else []) ++
     (if enable_remote_rules (config self) then remote_rules self else []))%list in
  filter Rule.enabled all_rules.

Definition get_rules_by_category (self : RuleEngine) (category : string)
  : list Rule.t :=
  filter (fun rule => String.eqb (Rule.category rule) category)
         (get_all_rules self).

(** [min(a, b)] on floats: [b] when [b < a], else [a]. *)
Definition py_min (a b : float) : float :=
  if (b <? a)%float then b else a.

(** The literal [1.1]. *)
Definition boost : float := 0x1.199999999999ap+0%float.

(** The literal [0.8]: the default of [Rule.confidence] and of
    [rule_confidence_threshold]. *)
Definition default_confidence : float := 0x1.999999999999ap-1%float.

Section Orchestrator.

Variable H : host.
Variable self : RuleEngine.

(** One turn of the loop of [_check_conditions]: whether the condition
    matched, and its line of evidence. *)
Definition check_condition (snapshot_dict : value) (condition : dict)
  : bool * string :=
  let field := dict_get condition "field" (VStr "") in
  let operator := dict_get condition "operator" (VStr "==") in
  let value := dict_get condition "value" VNone in
  let field_check := dict_get condition "field_check" VNone in
  let field_value := _get_field_value snapshot_dict field in
  let head :=
    py_str H field ++ " " ++ py_str H operator ++ " " ++ py_str H value in
  match _evaluate_condition H field_value operator value field_check with
  | Ret true => (true, head ++ ": 匹配")
  | Ret false =>
      (false, head ++ ": 不匹配 (实际值: " ++ py_str H field_value ++ ")")
  | Raise e => (false, py_str H field ++ ": 条件检查失败 - " ++ str_exn H e)
  end.

Fixpoint check_loop (snapshot_dict : value) (conditions : list dict)
    (all_matched : bool) (evidence : list string) : bool * list string :=
  match conditions with
  | [] => (all_matched, evidence)
  | condition :: rest =>
      let (matched, line) := check_condition snapshot_dict condition in
      check_loop snapshot_dict rest
                 (if matched then all_matched else false) (evidence ++ [line])%list
  end.

(** [_check_conditions]; the snapshot is given as the mapping its [dict()]
    returns. *)
Definition _check_conditions (conditions : list dict) (snapshot : value)
  : bool * list string :=
  check_loop snapshot conditions true [].

(** [_execute_action], as the [i]-th action of its rule. *)
Definition _execute_action (action : dict) (rule : Rule.t)
    (evidence : list string) (i : nat) : outcome action_result :=
  let action_type := dict_get action "type" (VStr "") in
  if op_is action_type "create_issue" then
    severity <-
      validate_str H (dict_get action "severity" (VStr (Rule.severity rule))) ;;
    description <-
      validate_str H (dict_get action "message" (VStr (Rule.description rule))) ;;
    recommendation <-
      validate_str H
        (dict_get action "recommendation"
           (VStr ("请检查" ++ Rule.category rule ++ "相关配置"))) ;;
    Ret {| result_description := "创建问题: " ++ Rule.name rule;
           result_issue :=
             Some (DiagnosisIssue.mk
                     (Rule.rule_id rule ++ "_" ++ now_stamp H (Rule.rule_id rule) i)
                     (Rule.category rule) severity (Rule.name rule)
                     description recommendation (Rule.confidence rule)
                     evidence) |}
  else if op_is action_type "log" then
    let message :=
      dict_get action "message" (VStr ("规则 " ++ Rule.name rule ++ " 被触发")) in
    Ret {| result_description := "记录日志: " ++ py_str H message;
           result_issue := None |}
  else
    Ret {| result_description := "未知动作类型: " ++ py_str H action_type;
           result_issue := None |}.

(** The loop over [rule.actions] in [_execute_single_rule]. *)
Fixpoint run_actions (rule : Rule.t) (evidence : list string)
    (todo : list dict) (i : nat)
    (actions_taken : list string) (issues_found : list DiagnosisIssue.t)
  : outcome (list string * list DiagnosisIssue.t) :=
  match todo with
  | [] => Ret (actions_taken, issues_found)
  | action :: rest =>
      r <- _execute_action action rule evidence i ;;
      run_actions rule evidence rest (S i)
        (actions_taken ++ [result_description r])%list
        (match result_issue r with
         | Some issue => (issues_found ++ [issue])%list
         | None => issues_found
         end)
  end.

(** The confidence computed at the end of [_execute_single_rule]. *)
Definition reported_confidence (rule : Rule.t) (matched : bool) : float :=
  let confidence := if matched then Rule.confidence rule else 0%float in
  if matched &&
     (rule_confidence_threshold (config self) <? Rule.confidence rule)%float
  then py_min 1 (confidence * boost)
  else confidence.

(** [_execute_single_rule]: its handler logs and raises again. *)
Definition _execute_single_rule (rule : Rule.t) (snapshot : value)
  : outcome RuleExecutionResult.t :=
  catch
    (let (matched, evidence) :=
       _check_conditions (Rule.conditions rule) snapshot in
     done <- (if matched
              then run_actions rule evidence (Rule.actions rule) 0%nat [] []
              else Ret ([], [])) ;;
     Ret (RuleExecutionResult.mk (Rule.rule_id rule) matched
            (reported_confidence rule matched) evidence (fst done) (snd done)
            0%float))
    (fun e => Raise e).

(** The result appended by the handler inside the loop of
    [execute_rules]. *)
Definition failed_result (rule : Rule.t) : RuleExecutionResult.t :=
  RuleExecutionResult.mk (Rule.rule_id rule) false 0%float [] [] []
    (elapsed H (Rule.rule_id rule)).

(** The loop of [execute_rules] over the enabled rules. *)
Fixpoint run_rules (rules : list Rule.t) (snapshot : value)
    (execution_results : list RuleExecutionResult.t)
  : outcome (list RuleExecutionResult.t) :=
  match rules with
  | [] => Ret execution_results
  | rule :: rest =>
      r <- catch
             (result <- _execute_single_rule rule snapshot ;;
              Ret (RuleExecutionResult.set_execution_time result
                     (elapsed H (Rule.rule_id rule))))
             (fun _ => Ret (failed_result rule)) ;;
      run_rules rest snapshot (execution_results ++ [r])%list
  end.

(** [execute_rules]: an exception that leaves the loop gives the empty
    list. *)
Definition execute_rules (snapshot : value)
  : outcome (list RuleExecutionResult.t) :=
  catch (run_rules (get_all_rules self) snapshot []) (fun _ => Ret []).

End Orchestrator.

(** ** Remote rule loader *)

(** A file found under the cache directory, with what [open] followed by
    [json.load] or [yaml.safe_load] gives on it. *)
Record rule_file : Type := {
  file_path : string;
  file_data : outcome value
}.

(** [for x in v]: the items of a list, the keys of a mapping, the characters
    of a string; nothing else can be iterated. *)
Definition py_iter (v : value) : outcome (list value) :=
  match v with
  | VList l => Ret l
  | VDict d => Ret (map (fun kv => VStr (fst kv)) d)
  | VStr s => Ret (map (fun c => VStr (String c EmptyString)) (list_ascii_of_string s))
  | _ => Raise TypeError
  end.

Section Loader.

Variable H : host.

(** The loop that appends to [remote_rules] the [Rule] made of each
    [rule_data]: the list as the loop leaves it, and the exception that
    stopped it, if any. *)
Fixpoint append_rules (records : list value) (remote_rules : list Rule.t)
  : list Rule.t * option exn :=
  match records with
  | [] => (remote_rules, None)
  | rule_data :: rest =>
      match rule_of_record H rule_data with
      | Ret rule => append_rules rest (remote_rules ++ [rule])%list
      | Raise e => (remote_rules, Some e)
      end
  end.

(** The body of the loop over the rule files, handler included: the list
    [remote_rules] after the file. *)
Definition load_rule_file (remote_rules : list Rule.t) (f : rule_file)
  : list Rule.t :=
  match file_data f with
  | Raise _ => remote_rules
  | Ret (VList records) => fst (append_rules records remote_rules)
  | Ret (VDict d) =>
      match dict_lookup d "rules" with
      | Some rules =>
          match py_iter rules with
          | Ret records => fst (append_rules records remote_rules)
          | Raise _ => remote_rules
          end
      | None => remote_rules
      end
  | Ret _ => remote_rules
  end.

(** [_load_cached_remote_rules]: [cache] is [None] when the repository
    directory does not exist, else the rule files found in it. *)
Definition _load_cached_remote_rules (self : RuleEngine)
    (cache : option (list rule_file)) : RuleEngine :=
  match cache with
  | None => self
  | Some rule_files =>
      {| config := config self;
         builtin_rules := builtin_rules self;
         remote_rules := fold_left load_rule_file rule_files [] |}
  end.

End Loader.

(** ** The built-in rules *)

Module BuiltinRules.

Definition builtin (rule_id name category description severity : string)
    (conditions actions : list dict) : Rule.t :=
  Rule.mk rule_id name category description severity conditions actions
          true default_confidence "1.0.0" "system".

Definition create_issue (severity message : string) : dict :=
  [("type", VStr "create_issue"); ("severity", VStr severity);
   ("message", VStr message)].

Definition get_hardware_rules : list Rule.t :=
  [ builtin "hw_cpu_high_usage" "CPU使用率过高" "hardware"
      "检测CPU使用率超过90%的情况" "high"
      [[("field", VStr "hardware.cpu.usage_percent"); ("operator", VStr ">");
        ("value", VInt 90)]]
      [create_issue "high" "CPU使用率过高，可能影响系统性能"];
    builtin "hw_memory_high_usage" "内存使用率过高" "hardware"
      "检测内存使用率超过90%的情况" "high"
      [[("field", VStr "hardware.memory.usage_percent");
        ("operator", VStr ">"); ("value", VInt 90)]]
      [create_issue "high" "内存使用率过高，系统可能变慢"];
    builtin "hw_disk_full" "磁盘空间不足" "hardware"
      "检测磁盘使用率超过95%的情况" "critical"
      [[("field", VStr "hardware.disks[*].usage_percent");
        ("operator", VStr ">"); ("value", VInt 95)]]
      [create_issue "critical" "磁盘空间严重不足，需要立即清理"];
    builtin "hw_cpu_temperature_high" "CPU温度过高" "hardware"
      "检测CPU温度超过80度的情况" "high"
      [[("field", VStr "hardware.cpu.temperature"); ("operator", VStr ">");
        ("value", VInt 80)]]
      [create_issue "high" "CPU温度过高，需要检查散热系统"] ].

Definition get_system_rules : list Rule.t :=
  [ builtin "sys_uptime_too_long" "系统运行时间过长" "system"
      "检测系统运行时间超过30天的情况" "medium"
      [[("field", VStr "system.system_info.uptime"); ("operator", VStr ">");
        ("value", VInt 2592000)]]
      [create_issue "medium" "系统运行时间过长，建议重启以清理内存"];
    builtin "sys_too_many_processes" "进程数量过多" "system"
      "检测活跃进程数量超过200的情况" "medium"
      [[("field", VStr "system.processes"); ("operator", VStr "count");
        ("value", VInt 200)]]
      [create_issue "medium" "系统进程数量过多，建议清理不必要的程序"];
    builtin "sys_high_cpu_process" "高CPU使用率进程" "system"
      "检测单个进程CPU使用率超过80%的情况" "medium"
      [[("field", VStr "system.processes[*].cpu_percent");
        ("operator", VStr ">"); ("value", VInt 80)]]
      [create_issue "medium" "检测到高CPU使用率进程"] ].

Definition get_network_rules : list Rule.t :=
  [ builtin "net_no_connectivity" "网络连通性异常" "network"
      "检测所有连通性测试失败的情况" "critical"
      [[("field", VStr "network.connectivity");
        ("operator", VStr "all_false"); ("field_check", VStr "is_reachable")]]
      [create_issue "critical" "网络连通性异常，所有测试主机均不可达"];
    builtin "net_high_latency" "网络延迟过高" "network"
      "检测平均网络延迟超过200ms的情况" "medium"
      [[("field", VStr "network.connectivity[*].latency");
        ("operator", VStr "avg>"); ("value", VInt 200)]]
      [create_issue "medium" "网络延迟过高，可能影响网络性能"];
    builtin "net_no_active_interface" "无活跃网络接口" "network"
      "检测没有活跃网络接口的情况" "critical"
      [[("field", VStr "network.interfaces"); ("operator", VStr "none_true");
        ("field_check", VStr "is_up")]]
      [create_issue "critical" "没有活跃的网络接口，网络功能不可用"] ].

Definition get_all_builtin_rules : list Rule.t :=
  (get_hardware_rules ++ get_system_rules ++ get_network_rules)%list.

End BuiltinRules.

(** ** A host to run examples on

    It reads signed decimal numerals ([12], [-3.5]) as floats and no other
    text, adds floats as CPython up to 3.11 does, prints integers in decimal and leaves the text of floats, lists and
    mappings blank, accepts for a [str] field what pydantic 1 accepts among
    the values here, and makes a [Rule] of a record whose fields already have
    their declared types. *)

Module ExampleHost.

Definition digit (c : ascii) : option Z :=
  let n := nat_of_ascii c in
  if (48 <=? n)%nat && (n <=? 57)%nat then Some (Z.of_nat (n - 48)) else None.

Fixpoint digits_value (s : string) (acc : Z) : option Z :=
  match s with
  | EmptyString => Some acc
  | String c rest =>
      match digit c with
      | Some d => digits_value rest (10 * acc + d)
      | None => None
      end
  end.

Definition magnitude (body : string) : outcome float :=
  let (whole, frac) :=
    match split_first "." body with
    | Some parts => parts
    | None => (body, EmptyString)
    end in
  if String.eqb whole "" && String.eqb frac "" then Raise ValueError
  else match digits_value (whole ++ frac) 0 with
       | Some m =>
           Ret (SF2Prim (SFdiv prec emax (exact_of_Z m)
                           (exact_of_Z (10 ^ Z.of_nat (String.length frac)))))
       | None => Raise ValueError
       end.

Definition read_float (s : string) : outcome float :=
  match s with
  | String "-" body => f <- magnitude body ;; Ret (- f)%float
  | String "+" body => magnitude body
  | _ => magnitude s
  end.

Definition print_int (n : Z) : string :=
  DecimalString.NilZero.string_of_int (Z.to_int n).

Definition print_other (v : value) : string :=
  match v with
  | VInt n => print_int n
  | _ => EmptyString
  end.

Definition accept_str (v : value) : outcome string :=
  match v with
  | VStr s => Ret s
  | VBool true => Ret "True"
  | VBool false => Ret "False"
  | VInt n => Ret (print_int n)
  | VFloat _ => Ret (print_other v)
  | _ => Raise ValidationError
  end.

Definition str_field (d : dict) (key : string) : outcome string :=
  match dict_lookup d key with
  | Some (VStr s) => Ret s
  | _ => Raise ValidationError
  end.

Definition str_field_or (d : dict) (key default : string) : outcome string :=
  match dict_lookup d key with
  | None => Ret default
  | Some (VStr s) => Ret s
  | Some _ => Raise ValidationError
  end.

Fixpoint dicts_of (l : list value) : outcome (list dict) :=
  match l with
  | [] => Ret []
  | VDict d :: rest => ds <- dicts_of rest ;; Ret (d :: ds)
  | _ :: _ => Raise ValidationError
  end.

Definition dicts_field (d : dict) (key : string) : outcome (list dict) :=
  match dict_lookup d key with
  | Some (VList l) => dicts_of l
  | _ => Raise ValidationError
  end.

Definition make_rule (rule_data : value) : outcome Rule.t :=
  match rule_data with
  | VDict d =>
      rule_id <- str_field d "rule_id" ;;
      name <- str_field d "name" ;;
      category <- str_field d "category" ;;
      description <- str_field d "description" ;;
      severity <- str_field d "severity" ;;
      conditions <- dicts_field d "conditions" ;;
      actions <- dicts_field d "actions" ;;
      enabled <- match dict_lookup d "enabled" with
                 | None => Ret true
                 | Some (VBool b) => Ret b
                 | Some _ => Raise ValidationError
                 end ;;
      confidence <- match dict_lookup d "confidence" with
                    | None => Ret default_confidence
                    | Some (VFloat f) => Ret f
                    | Some (VInt n) => float_of_Z n
                    | Some _ => Raise ValidationError
                    end ;;
      version <- str_field_or d "version" "1.0.0" ;;
      author <- str_field_or d "author" "system" ;;
      Ret (Rule.mk rule_id name category description severity conditions
             actions enabled confidence version author)
  | _ => Raise TypeError
  end.

(** [a + b] on two numbers. *)
Definition py_add (a b : number) : outcome number :=
  match a, b with
  | NInt x, NInt y => Ret (NInt (x + y))
  | NInt x, NFloat g => fx <- float_of_Z x ;; Ret (NFloat (fx + g)%float)
  | NFloat f, NInt y => fy <- float_of_Z y ;; Ret (NFloat (f + fy)%float)
  | NFloat f, NFloat g => Ret (NFloat (f + g)%float)
  end.

(** The summation of CPython up to 3.11: from the integer 0, one addition
    after the other, from left to right. *)
Fixpoint sum_from (acc : number) (xs : list number) : outcome number :=
  match xs with
  | [] => Ret acc
  | x :: rest => acc' <- py_add acc x ;; sum_from acc' rest
  end.

Definition sum_left_to_right (xs : list number) : outcome float :=
  s <- sum_from (NInt 0) xs ;;
  match s with
  | NFloat f => Ret f
  | NInt n => float_of_Z n
  end.

Definition example_host : host :=
  {| float_of_str := read_float;
     float_sum := sum_left_to_right;
     str_other := print_other;
     str_exn := fun _ => EmptyString;
     validate_str := accept_str;
     rule_of_record := make_rule;
     now_stamp := fun _ _ => "20240101_000000";
     elapsed := fun _ => 0%float |}.

End ExampleHost.

(** What one turn of the loop of [execute_rules] appends for a rule. *)
Definition rule_outcome (H : host) (self : RuleEngine) (snapshot : value)
    (rule : Rule.t) : RuleExecutionResult.t :=
  match _execute_single_rule H self rule snapshot with
  | Ret result =>
      RuleExecutionResult.set_execution_time result
        (elapsed H (Rule.rule_id rule))
  | Raise _ => failed_result H rule
  end.

(** ** Engines and snapshots of the examples *)

Module Examples.

Definition default_config : RuleEngineConfiguration :=
  {| enable_builtin_rules := true;
     enable_remote_rules := true;
     remote_rules_url := "https://gitea.example.com/sysgraph/rules";
     rules_update_interval := 86400;
     rule_confidence_threshold := default_confidence |}.

(** A remote rule whose [create_issue] action carries a list where the
    message belongs: building the issue fails. *)
Definition broken_rule : Rule.t :=
  Rule.mk "remote_broken" "broken" "hardware" "message is no text" "low"
    [] [[("type", VStr "create_issue"); ("message", VList [])]]
    true default_confidence "1.0.0" "remote".

(** A remote rule without conditions, with a base confidence of 1.5. *)
Definition overconfident_rule : Rule.t :=
  Rule.mk "remote_sure" "sure" "system" "always" "low" [] []
    true 1.5%float "1.0.0" "remote".

Definition busy_cpu : value :=
  VDict [("hardware", VDict [("cpu", VDict [("usage_percent", VFloat 95)])])].

(** The built-in CPU rule, the broken rule, the built-in process rule. *)
Definition engine_with_broken_rule : RuleEngine :=
  {| config := default_config;
     builtin_rules := firstn 1 BuiltinRules.get_hardware_rules;
     remote_rules := [broken_rule; nth 1 BuiltinRules.get_system_rules broken_rule] |}.

(** A threshold of 2.0, above the base confidence of the only rule. *)
Definition lenient_engine : RuleEngine :=
  {| config :=
       {| enable_builtin_rules := false;
          enable_remote_rules := true;
          remote_rules_url := "";
          rules_update_interval := 86400;
          rule_confidence_threshold := 2%float |};
     builtin_rules := [];
     remote_rules := [overconfident_rule] |}.

Definition rule_record (rule_id : string) : value :=
  VDict [("rule_id", VStr rule_id); ("name", VStr rule_id);
         ("category", VStr "system"); ("description", VStr "");
         ("severity", VStr "low"); ("conditions", VList []);
         ("actions", VList [])].

Definition summary (r : RuleExecutionResult.t)
  : string * bool * float * nat * nat * nat :=
  (RuleExecutionResult.rule_id r, RuleExecutionResult.matched r,
   RuleExecutionResult.confidence r,
   List.length (RuleExecutionResult.evidence r),
   List.length (RuleExecutionResult.actions_taken r),
   List.length (RuleExecutionResult.issues_found r)).

End Examples.

(** The operator names that [_evaluate_condition] knows. *)
Definition documented_operators : list string :=
  [">"; "<"; ">="; "<="; "=="; "!="; "contains"; "count"; "all_false";
   "none_true"; "avg>"].

Definition documented_operator (operator : value) : bool :=
  existsb (op_is operator) documented_operators.

(** ** Engine state, construction and remote synchronisation *)

(** A [RuleEngine] with the time of its last successful fetch.  A time is a
    count of microseconds, the resolution of [datetime]. *)
Record EngineState : Type := {
  engine : RuleEngine;
  _last_remote_update : option Z
}.

(** [__init__] with [_load_builtin_rules]: the state when the constructor
    returns, the remote load being left to its task. *)
Definition RuleEngine_init (config : RuleEngineConfiguration) : EngineState :=
  {| engine :=
       {| config := config;
          builtin_rules :=
            if enable_builtin_rules config
            then BuiltinRules.get_all_builtin_rules
            else [];
          remote_rules := [] |};
     _last_remote_update := None |}.

(** [timedelta.total_seconds()]: the microseconds divided by [10**6]. *)
Definition total_seconds (microseconds : Z) : outcome float :=
  int_truediv microseconds 1000000.

(** [_should_update_remote_rules] when the clock reads [now]. *)
Definition _should_update_remote_rules (self : EngineState) (now : Z)
  : outcome bool :=
  match _last_remote_update self with
  | None => Ret true
  | Some last =>
      seconds <- total_seconds (now - last) ;;
      Ret (num_gt (NFloat seconds)
             (NInt (rules_update_interval (config (engine self)))))
  end.

(** What a synchronisation meets outside the engine: the clock when the
    interval is checked and when a fetch has succeeded, the text of the
    repository directory, the rule files of that directory before the fetch
    ([None] when it does not exist), and git, which gives the exit code of
    the command (or the exception of starting it) and the directory as the
    command leaves it. *)
Record sync_world : Type := {
  clock_check : Z;
  clock_fetch : Z;
  repo_dir : string;
  cache_before : option (list rule_file);
  run_git : list string -> outcome Z * option (list rule_file)
}.

(** The command of [_fetch_remote_rules]: pull into an existing repository,
    else clone the configured one. *)
Definition fetch_command (self : EngineState) (w : sync_world) : list string :=
  match cache_before w with
  | Some _ => ["git"; "-C"; repo_dir w; "pull"]
  | None =>
      ["git"; "clone"; remote_rules_url (config (engine self)); repo_dir w]
  end.

(** [_fetch_remote_rules]: the state after it, and the directory the command
    leaves.  Only exit code 0 records the time; every exception is logged. *)
Definition _fetch_remote_rules (self : EngineState) (w : sync_world)
  : EngineState * option (list rule_file) :=
  let (result, cache) := run_git w (fetch_command self w) in
  (match result with
   | Ret returncode =>
       if returncode =? 0
       then {| engine := engine self;
               _last_remote_update := Some (clock_fetch w) |}
       else self
   | Raise _ => self
   end, cache).

(** [_load_remote_rules]: fetch when due, then load what the directory
    holds; an exception of the interval check is logged and ends the load. *)
Definition _load_remote_rules (H : host) (self : EngineState) (w : sync_world)
  : EngineState :=
  match _should_update_remote_rules self (clock_check w) with
  | Raise _ => self
  | Ret true =>
      let (fetched, cache) := _fetch_remote_rules self w in
      {| engine := _load_cached_remote_rules H (engine fetched) cache;
         _last_remote_update := _last_remote_update fetched |}
  | Ret false =>
      {| engine := _load_cached_remote_rules H (engine self) (cache_before w);
         _last_remote_update := _last_remote_update self |}
  end.

(** ** Rule statistics *)

(** A mapping from text to a count, in insertion order. *)
Definition counter : Type := list (string * Z).

Fixpoint counter_get (c : counter) (key : string) : option Z :=
  match c with
  | [] => None
  | (k, n) :: rest => if String.eqb k key then Some n else counter_get rest key
  end.

(** [c[key] = n]: in place when the key is there, else at the end. *)
Fixpoint counter_set (c : counter) (key : string) (n : Z) : counter :=
  match c with
  | [] => [(key, n)]
  | (k, m) :: rest =>
      if String.eqb k key then (k, n) :: rest
      else (k, m) :: counter_set rest key n
  end.

(** [if key not in c: c[key] = 0] followed by [c[key] += 1]. *)
Definition tally (c : counter) (key : string) : counter :=
  let c :=
    match counter_get c key with
    | None => counter_set c key 0
    | Some _ => c
    end in
  match counter_get c key with
  | Some n => counter_set c key (n + 1)
  | None => c
  end.

Definition count_by (key_of : Rule.t -> string) (rules : list Rule.t)
  : counter :=
  fold_left (fun c rule => tally c (key_of rule)) rules [].

Definition counter_dict (c : counter) : value :=
  VDict (map (fun kn => (fst kn, VInt (snd kn))) c).

(** [config.dict()] *)
Definition config_dict (c : RuleEngineConfiguration) : value :=
  VDict [("enable_builtin_rules", VBool (enable_builtin_rules c));
         ("enable_remote_rules", VBool (enable_remote_rules c));
         ("remote_rules_url", VStr (remote_rules_url c));
         ("rules_update_interval", VInt (rules_update_interval c));
         ("rule_confidence_threshold", VFloat (rule_confidence_threshold c))].

(** [get_rule_statistics]; [isoformat] is [datetime.isoformat]. *)
Definition get_rule_statistics (isoformat : Z -> string) (self : EngineState)
  : value :=
  let all_rules := get_all_rules (engine self) in
  VDict [("total_rules", VInt (Z.of_nat (List.length all_rules)));
         ("builtin_rules",
          VInt (Z.of_nat (List.length (builtin_rules (engine self)))));
         ("remote_rules",
          VInt (Z.of_nat (List.length (remote_rules (engine self)))));
         ("by_category", counter_dict (count_by Rule.category all_rules));
         ("by_severity", counter_dict (count_by Rule.severity all_rules));
         ("last_remote_update",
          match _last_remote_update self with
          | Some t => VStr (isoformat t)
          | None => VNone
          end);
         ("config", config_dict (config (engine self)))].

(** [stats[key]] and [stats[key][name]] on the statistics. *)
Definition stat (stats : value) (key : string) : option value :=
  match stats with
  | VDict d => dict_lookup d key
  | _ => None
  end.

Definition stat_count (stats : value) (key name : string) : option value :=
  match stat stats key with
  | Some (VDict d) => dict_lookup d name
  | _ => None
  end.


(** [action.get('type', '') == 'create_issue'] *)
Definition is_create_issue (action : dict) : bool :=
  op_is (dict_get action "type" (VStr "")) "create_issue".

(** The four values a condition is read as, with the defaults of
    [_check_conditions]. *)
Definition condition_field (condition : dict) : value :=
  dict_get condition "field" (VStr "").
Definition condition_operator (condition : dict) : value :=
  dict_get condition "operator" (VStr "==").
Definition condition_value (condition : dict) : value :=
  dict_get condition "value" VNone.
Definition condition_field_check (condition : dict) : value :=
  dict_get condition "field_check" VNone.

(** The operators that coerce both sides with [float]. *)
Definition is_numeric_comparison (operator : value) : bool :=
  existsb (op_is operator) [">"; "<"; ">="; "<="].

(** What an issue takes from its rule and from the evidence of the run. *)
Definition issue_of_rule (rule : Rule.t) (evidence : list string)
    (issue : DiagnosisIssue.t) : Prop :=
  DiagnosisIssue.confidence issue = Rule.confidence rule /\
  DiagnosisIssue.category issue = Rule.category rule /\
  DiagnosisIssue.title issue = Rule.name rule /\
  DiagnosisIssue.evidence issue = evidence /\
  exists stamp,
    DiagnosisIssue.issue_id issue = Rule.rule_id rule ++ "_" ++ stamp.


(** How often the key occurs among the rules. *)
Definition occurrences (key_of : Rule.t -> string) (key : string)
    (rules : list Rule.t) : Z :=
  Z.of_nat (List.length (filter (fun rule => String.eqb (key_of rule) key) rules)).

(** A first load whose clone fails although the directory holds one file of
    one rule: the rule is loaded, and no time is recorded. *)
Definition offline_world : sync_world :=
  {| clock_check := 1000000;
     clock_fetch := 2000000;
     repo_dir := "/home/user/.sysgraph/rules/remote_repo";
     cache_before := None;
     run_git := fun _ =>
       (Ret 128,
        Some [ {| file_path := "a.json";
                  file_data := Ret (VList [Examples.rule_record "a"]) |} ]) |}.

(** The records of a rule file: the items of a top-level list, or what
    iterating the value under [rules] of a top-level mapping yields. *)
Definition file_records (f : rule_file) (records : list value) : Prop :=
  file_data f = Ret (VList records) \/
  exists d rules,
    file_data f = Ret (VDict d) /\
    dict_lookup d "rules" = Some rules /\
    py_iter rules = Ret records.

(** * Properties *)

(** ** The condition evaluator *)

Section EvaluatorFacts.

Variable H : host.

Lemma catch_returns (A : Type) (m : outcome A) (a : A) :
  returns (catch m (fun _ => Ret a)).
Proof. destruct m as [x | e]; [exists x | exists a]; reflexivity. Qed.

Lemma evaluate_condition_returns fv op t fc :
  returns (_evaluate_condition H fv op t fc).
Proof. apply catch_returns. Qed.

Lemma evaluate_condition_raise fv op t fc e :
  evaluate_condition_body H fv op t fc = Raise e ->
  _evaluate_condition H fv op t fc = Ret false.
Proof. unfold _evaluate_condition; intros ->; reflexivity. Qed.

Lemma evaluate_condition_ret fv op t fc b :
  evaluate_condition_body H fv op t fc = Ret b ->
  _evaluate_condition H fv op t fc = Ret b.
Proof. unfold _evaluate_condition; intros ->; reflexivity. Qed.

Lemma undocumented_operator fv op t fc :
  documented_operator op = false ->
  evaluate_condition_body H fv op t fc = Ret false.
Proof.
  unfold documented_operator, documented_operators; cbn [existsb].
  intros Hop.
  repeat (apply orb_false_elim in Hop; destruct Hop as [?E Hop]).
  unfold evaluate_condition_body.
  repeat match goal with
         | E : op_is op _ = false |- _ => rewrite E; clear E
         end.
  reflexivity.
Qed.

(** C9: the evaluator always returns a boolean; an exception of its body
    gives unmatched, and so does an operator name outside the documented
    set. *)
Theorem evaluate_condition_total :
  forall fv op t fc,
    (exists b, _evaluate_condition H fv op t fc = Ret b) /\
    (forall e, evaluate_condition_body H fv op t fc = Raise e ->
               _evaluate_condition H fv op t fc = Ret false) /\
    (documented_operator op = false ->
     _evaluate_condition H fv op t fc = Ret false).
Proof.
  intros fv op t fc; split; [apply evaluate_condition_returns | split].
  - apply evaluate_condition_raise.
  - intros Hop; apply evaluate_condition_ret, undocumented_operator, Hop.
Qed.

(** Both premises of C9 occur: a failed coercion raises inside the body,
    and an unknown operator is simply unmatched. *)
Example body_raises_on_absent_number :
  evaluate_condition_body H VNone (VStr ">") (VInt 90) VNone = Raise TypeError
  /\ _evaluate_condition H VNone (VStr ">") (VInt 90) VNone = Ret false.
Proof. split; reflexivity. Qed.

Example unknown_operator_unmatched :
  documented_operator (VStr "matches") = false /\
  _evaluate_condition H (VStr "abc") (VStr "matches") (VStr "abc") VNone
  = Ret false.
Proof. split; reflexivity. Qed.

(** C10: [all_false] and [none_true] without a [field_check] ([None] or the
    empty string) never match, whatever the field value and the target. *)
Theorem collection_predicate_needs_field_check :
  forall fv t,
    _evaluate_condition H fv (VStr "all_false") t VNone = Ret false /\
    _evaluate_condition H fv (VStr "all_false") t (VStr "") = Ret false /\
    _evaluate_condition H fv (VStr "none_true") t VNone = Ret false /\
    _evaluate_condition H fv (VStr "none_true") t (VStr "") = Ret false.
Proof. intros fv t; repeat split; reflexivity. Qed.

(** The same sequence matches once the [field_check] is given. *)
Example field_check_decides :
  let unreachable := VList [VDict [("is_reachable", VBool false)]] in
  _evaluate_condition H unreachable (VStr "all_false") VNone VNone = Ret false
  /\ _evaluate_condition H unreachable (VStr "all_false") VNone
       (VStr "is_reachable") = Ret true
  /\ _evaluate_condition H unreachable (VStr "none_true") VNone VNone
     = Ret false
  /\ _evaluate_condition H unreachable (VStr "none_true") VNone
       (VStr "is_reachable") = Ret true.
Proof. repeat split; reflexivity. Qed.

End EvaluatorFacts.

(** ** Absent fields *)

Section AbsentField.

Variable H : host.

(** [None == t] holds for [None] alone. *)
Lemma equals_on_absent (t fc : value) :
  _evaluate_condition H VNone (VStr "==") t fc
  = Ret match t with VNone => true | _ => false end.
Proof. destruct t; reflexivity. Qed.

(** On an absent field [contains] tests the target against the text
    [None]. *)
Lemma contains_on_absent (t fc : value) :
  _evaluate_condition H VNone (VStr "contains") t fc
  = Ret match t with
        | VStr s => str_contains s "None"
        | _ => false
        end.
Proof. destruct t; reflexivity. Qed.

(** C2, as the code has it: when the field path resolves to no value, the
    evaluation returns (it never raises); [>], [<] and [avg>] are unmatched
    for every target, [==] is unmatched for every target but [None], and
    [contains] is unmatched unless the target is a string that occurs in the
    text [None]. *)
Theorem absent_field_unmatched :
  forall (snapshot field : value),
    _get_field_value snapshot field = VNone ->
    forall t fc,
      let fv := _get_field_value snapshot field in
      _evaluate_condition H fv (VStr ">") t fc = Ret false /\
      _evaluate_condition H fv (VStr "<") t fc = Ret false /\
      _evaluate_condition H fv (VStr "avg>") t fc = Ret false /\
      _evaluate_condition H fv (VStr "==") t fc
      = Ret match t with VNone => true | _ => false end /\
      _evaluate_condition H fv (VStr "contains") t fc
      = Ret match t with
            | VStr s => str_contains s "None"
            | _ => false
            end.
Proof.
  intros snapshot field Habsent t fc fv; subst fv; rewrite Habsent.
  repeat split;
    first [ apply equals_on_absent | apply contains_on_absent | reflexivity ].
Qed.

End AbsentField.

(** A path that leaves the snapshot resolves to no value, and the theorem
    applies to it. *)
Lemma absent_field_unmatched_witness :
  _get_field_value (VDict []) (VStr "hardware.cpu.model") = VNone /\
  _evaluate_condition ExampleHost.example_host
    (_get_field_value (VDict []) (VStr "hardware.cpu.model"))
    (VStr ">") (VInt 90) VNone = Ret false.
Proof.
  split; [reflexivity |].
  exact (proj1 (absent_field_unmatched ExampleHost.example_host (VDict [])
                  (VStr "hardware.cpu.model") eq_refl (VInt 90) VNone)).
Defined.

(** C2 fails for [contains]: the absent field is printed as [None], and the
    target [None] (or [on], or the empty string) is found in it. *)
Lemma contains_matches_absent_field :
  _get_field_value (VDict []) (VStr "hardware.cpu.model") = VNone /\
  _evaluate_condition ExampleHost.example_host
    (_get_field_value (VDict []) (VStr "hardware.cpu.model"))
    (VStr "contains") (VStr "None") VNone = Ret true.
Proof. split; reflexivity. Qed.

(** ** Collection operators *)

Section CollectionOperators.

Variable H : host.

Lemma count_body (fv t fc : value) :
  _evaluate_condition H fv (VStr "count") t fc
  = Ret match fv, as_number t with
        | VList l, Some b => num_gt (NInt (Z.of_nat (List.length l))) b
        | _, _ => false
        end.
Proof.
  unfold _evaluate_condition, evaluate_condition_body, py_gt.
  destruct fv; try reflexivity.
  destruct (as_number t); reflexivity.
Qed.

(** C6: [count] matches exactly when the field value is a sequence, the
    target is a number, and the length is strictly greater than the target; a
    target equal to the length is unmatched (200 against 200), one below it
    is matched (200 against 199); a value that is no sequence never
    matches. *)
Theorem count_matches_above_target :
  forall fv t fc,
    _evaluate_condition H fv (VStr "count") t fc
    = Ret match fv, as_number t with
          | VList l, Some b => num_gt (NInt (Z.of_nat (List.length l))) b
          | _, _ => false
          end
    /\ (forall l n, fv = VList l -> t = VInt n ->
          (_evaluate_condition H fv (VStr "count") t fc = Ret true
           <-> n < Z.of_nat (List.length l)))
    /\ (forall l, fv = VList l -> List.length l = 200%nat ->
          _evaluate_condition H fv (VStr "count") (VInt 200) fc = Ret false /\
          _evaluate_condition H fv (VStr "count") (VInt 199) fc = Ret true)
    /\ (is_list fv = false ->
        _evaluate_condition H fv (VStr "count") t fc = Ret false).
Proof.
  intros fv t fc; split; [apply count_body | split; [| split]].
  - intros l n -> ->; rewrite count_body; cbn [as_number num_gt].
    split.
    + intros E; injection E as E; apply Z.ltb_lt, E.
    + intros E; apply Z.ltb_lt in E; rewrite E; reflexivity.
  - intros l -> Hlen; rewrite !count_body; cbn [as_number num_gt].
    rewrite Hlen; split; reflexivity.
  - intros Hnl; rewrite count_body; destruct fv; try reflexivity.
    discriminate Hnl.
Qed.

Example count_processes_boundary :
  let processes := VList (repeat (VDict []) 200) in
  _evaluate_condition H processes (VStr "count") (VInt 200) VNone = Ret false /\
  _evaluate_condition H processes (VStr "count") (VInt 199) VNone = Ret true /\
  _evaluate_condition H processes (VStr "count") (VFloat 199.5) VNone = Ret true.
Proof. repeat split; vm_compute; reflexivity. Qed.

(** The two loops over a sequence of mappings, as list functions. *)
Lemma all_not_get_dicts (name : string) (ds : list dict) :
  all_not_get (VStr name) (map VDict ds)
  = Ret (forallb (fun d => negb (py_truth (dict_get d name (VBool true)))) ds).
Proof.
  induction ds as [| d ds IH]; [reflexivity |].
  cbn [map all_not_get item_get bind forallb].
  destruct (py_truth (dict_get d name (VBool true))); cbn [negb andb];
    [reflexivity | exact IH].
Qed.

Lemma any_get_dicts (name : string) (ds : list dict) :
  any_get (VStr name) (map VDict ds)
  = Ret (existsb (fun d => py_truth (dict_get d name (VBool false))) ds).
Proof.
  induction ds as [| d ds IH]; [reflexivity |].
  cbn [map any_get item_get bind existsb].
  destruct (py_truth (dict_get d name (VBool false))); cbn [orb];
    [reflexivity | exact IH].
Qed.

Lemma nonempty_name_truthy (name : string) :
  name <> "" -> py_truth (VStr name) = true.
Proof.
  intros Hne; cbn [py_truth]; apply negb_true_iff, String.eqb_neq, Hne.
Qed.

Lemma all_false_body (name : string) (fv t : value) :
  name <> "" ->
  _evaluate_condition H fv (VStr "all_false") t (VStr name)
  = catch match fv with
          | VList l => all_not_get (VStr name) l
          | _ => Ret false
          end (fun _ => Ret false).
Proof.
  intros Hne; unfold _evaluate_condition, evaluate_condition_body.
  cbn [op_is String.eqb Ascii.eqb Bool.eqb andb].
  rewrite (nonempty_name_truthy name Hne); reflexivity.
Qed.

Lemma none_true_body (name : string) (fv t : value) :
  name <> "" ->
  _evaluate_condition H fv (VStr "none_true") t (VStr name)
  = catch match fv with
          | VList l => b <- any_get (VStr name) l ;; Ret (negb b)
          | _ => Ret false
          end (fun _ => Ret false).
Proof.
  intros Hne; unfold _evaluate_condition, evaluate_condition_body.
  cbn [op_is String.eqb Ascii.eqb Bool.eqb andb].
  rewrite (nonempty_name_truthy name Hne); reflexivity.
Qed.

(** C7: on a sequence of mappings and with a non-empty [field_check],
    [all_false] matches exactly when every element has the key with a falsy
    value (a missing key counts as truthy), [none_true] matches exactly when
    no element has the key with a truthy value; on a value that is no
    sequence neither matches. *)
Theorem all_false_none_true_semantics :
  forall (name : string) (ds : list dict) (fv t : value),
    name <> "" ->
    (_evaluate_condition H (VList (map VDict ds)) (VStr "all_false") t (VStr name)
     = Ret true
     <-> Forall (fun d => exists v, dict_lookup d name = Some v /\
                                    py_truth v = false) ds) /\
    (_evaluate_condition H (VList (map VDict ds)) (VStr "none_true") t (VStr name)
     = Ret true
     <-> Forall (fun d => forall v, dict_lookup d name = Some v ->
                                    py_truth v = false) ds) /\
    (returns (_evaluate_condition H (VList (map VDict ds)) (VStr "all_false") t
                (VStr name)) /\
     returns (_evaluate_condition H (VList (map VDict ds)) (VStr "none_true") t
                (VStr name))) /\
    (is_list fv = false ->
     _evaluate_condition H fv (VStr "all_false") t (VStr name) = Ret false /\
     _evaluate_condition H fv (VStr "none_true") t (VStr name) = Ret false).
Proof.
  intros name ds fv t Hne.
  split; [| split; [| split]].
  - rewrite (all_false_body name _ t Hne), all_not_get_dicts; cbn [catch].
    split.
    + intros E; injection E as E.
      rewrite forallb_forall in E; apply Forall_forall; intros d Hd.
      specialize (E d Hd); apply negb_true_iff in E.
      unfold dict_get in E; destruct (dict_lookup d name) as [v |].
      * exists v; split; [reflexivity | exact E].
      * discriminate E.
    + intros F; f_equal; apply forallb_forall; intros d Hd.
      rewrite Forall_forall in F; destruct (F d Hd) as (v & Hv & Hfalse).
      unfold dict_get; rewrite Hv, Hfalse; reflexivity.
  - rewrite (none_true_body name _ t Hne), any_get_dicts; cbn [catch bind].
    split.
    + intros E; injection E as E; apply negb_true_iff in E.
      apply Forall_forall; intros d Hd v Hv.
      destruct (py_truth v) eqn:Htruth; [| reflexivity].
      assert (X : existsb (fun d => py_truth (dict_get d name (VBool false))) ds
                  = true).
      { apply existsb_exists; exists d; split; [exact Hd |].
        unfold dict_get; rewrite Hv; exact Htruth. }
      rewrite X in E; discriminate E.
    + intros F; f_equal; apply negb_true_iff.
      destruct (existsb _ ds) eqn:X; [| reflexivity].
      apply existsb_exists in X; destruct X as (d & Hd & Htruth).
      rewrite Forall_forall in F; specialize (F d Hd).
      unfold dict_get in Htruth; destruct (dict_lookup d name) as [v |].
      * rewrite (F v eq_refl) in Htruth; discriminate Htruth.
      * discriminate Htruth.
  - split; apply evaluate_condition_returns.
  - intros Hnl; rewrite (all_false_body name fv t Hne),
      (none_true_body name fv t Hne).
    destruct fv; try (split; reflexivity); discriminate Hnl.
Qed.

End CollectionOperators.

(** Two unreachable hosts, one of them without the key: [all_false] does
    not match, [none_true] does. *)
Lemma all_false_none_true_semantics_witness :
  "is_reachable" <> "" /\
  (_evaluate_condition ExampleHost.example_host
     (VList (map VDict [[("is_reachable", VBool false)]; [("host", VStr "a")]]))
     (VStr "none_true") VNone (VStr "is_reachable") = Ret true
   <-> Forall (fun d => forall v, dict_lookup d "is_reachable" = Some v ->
                                  py_truth v = false)
         [[("is_reachable", VBool false)]; [("host", VStr "a")]]).
Proof.
  assert (Hne : "is_reachable" <> "") by discriminate.
  split; [exact Hne |].
  exact (proj1 (proj2 (all_false_none_true_semantics ExampleHost.example_host
                         "is_reachable"
                         [[("is_reachable", VBool false)]; [("host", VStr "a")]]
                         VNone VNone Hne))).
Defined.

(** ** The average operator *)

Section AverageOperator.

Variable H : host.









(** Integer elements only, so that the interpreter's float summation plays
    no part. *)
Example avg_latency :
  let absent := VList [VNone; VNone] in
  let slow := VList [VInt 150; VNone; VStr "900"; VInt 350; VInt 251] in
  _evaluate_condition H (VList []) (VStr "avg>") (VInt (-1)) VNone = Ret false /\
  _evaluate_condition H absent (VStr "avg>") (VInt (-1)) VNone = Ret false /\
  average H (numeric_values [VInt 150; VNone; VStr "900"; VInt 350; VInt 251])
  = Ret 0x1.f4aaaaaaaaaabp+7%float /\
  _evaluate_condition H slow (VStr "avg>") (VInt 250) VNone = Ret true /\
  _evaluate_condition H slow (VStr "avg>") (VFloat 250.5) VNone = Ret false.
Proof. repeat split; vm_compute; reflexivity. Qed.

End AverageOperator.


(** ** The field resolver *)

Lemma substring_all (s : string) : substring 0 (String.length s) s = s.
Proof. induction s as [| c s IH]; [reflexivity | cbn; now rewrite IH]. Qed.

Lemma drop_wildcard (rest : string) :
  drop_string (String.length wildcard) (wildcard ++ rest) = rest.
Proof.
  unfold drop_string, wildcard; cbn [String.length append].
  replace (S (S (S (String.length rest))) - 3)%nat with (String.length rest)
    by lia.
  cbn [substring]; apply substring_all.
Qed.

(** A marker that does not start at the head of [c :: b] does not start at
    the head of [c :: b] followed by a marker either: the marker cannot
    overlap itself. *)
Lemma no_marker_at_head (c : ascii) (b rest : string) :
  String.prefix wildcard (String c b) = false ->
  String.prefix wildcard (String c (b ++ wildcard ++ rest)) = false.
Proof.
  unfold wildcard; cbn [String.prefix].
  destruct (ascii_dec "[" c); [| reflexivity].
  destruct b as [| c2 b2]; cbn [append String.prefix]; [reflexivity |].
  destruct (ascii_dec "*" c2); [| reflexivity].
  destruct b2 as [| c3 b3]; cbn [append String.prefix]; [reflexivity |].
  destruct (ascii_dec "]" c3); [| reflexivity].
  destruct b3; discriminate.
Qed.

Lemma split_first_unfold (sep s : string) :
  split_first sep s
  = if String.prefix sep s
    then Some (EmptyString, drop_string (String.length sep) s)
    else match s with
         | EmptyString => None
         | String c s' =>
             match split_first sep s' with
             | Some (before, after) => Some (String c before, after)
             | None => None
             end
         end.
Proof. destruct s; reflexivity. Qed.

Lemma marker_is_prefix (rest : string) :
  String.prefix wildcard (wildcard ++ rest) = true.
Proof. destruct rest; reflexivity. Qed.

(** [split('[*]', 1)] cuts at the marker that follows a marker-free base. *)
Lemma split_at_marker (base rest : string) :
  str_contains wildcard base = false ->
  split_first wildcard (base ++ wildcard ++ rest) = Some (base, rest).
Proof.
  unfold str_contains.
  induction base as [| c b IH]; intros Hfree.
  - cbn [append].
    rewrite split_first_unfold, marker_is_prefix, drop_wildcard; reflexivity.
  - rewrite split_first_unfold in Hfree.
    destruct (String.prefix wildcard (String c b)) eqn:Hp; [discriminate Hfree |].
    cbn [append]; rewrite split_first_unfold, (no_marker_at_head c b rest Hp).
    destruct (split_first wildcard b) as [[x y] |]; [discriminate Hfree |].
    rewrite (IH eq_refl); reflexivity.
Qed.

Lemma prefix_app (p s t : string) :
  String.prefix p s = true -> String.prefix p (s ++ t) = true.
Proof.
  revert s; induction p as [| a p IH]; intros s.
  - intros _; destruct (s ++ t); reflexivity.
  - destruct s as [| b s]; cbn [String.prefix append]; [discriminate |].
    destruct (ascii_dec a b); [apply IH | discriminate].
Qed.

Lemma marker_prefix_decompose (s : string) :
  String.prefix wildcard s = true ->
  s = wildcard ++ drop_string (String.length wildcard) s.
Proof.
  unfold wildcard.
  destruct s as [| c1 [| c2 [| c3 s]]]; cbn [String.prefix];
    try discriminate;
    repeat match goal with
           | |- context [ascii_dec ?a ?b] => destruct (ascii_dec a b)
           end; try discriminate.
  intros _; subst; unfold drop_string; cbn [String.length append].
  replace (S (S (S (String.length s))) - 3)%nat with (String.length s) by lia.
  cbn [substring]; rewrite substring_all; reflexivity.
Qed.

(** Every path that holds the marker is a marker-free base, the marker, and
    a rest: the split of [_get_field_value] is the one of the theorem
    below. *)
Lemma split_first_marker_sound (path base rest : string) :
  split_first wildcard path = Some (base, rest) ->
  path = base ++ wildcard ++ rest /\ str_contains wildcard base = false.
Proof.
  revert base; induction path as [| c path IH]; intros base.
  - rewrite split_first_unfold.
    replace (String.prefix wildcard "") with false by reflexivity.
    discriminate.
  - rewrite split_first_unfold.
    destruct (String.prefix wildcard (String c path)) eqn:Hp.
    + intros E; injection E as <- <-; split; [| reflexivity].
      cbn [append]; apply marker_prefix_decompose, Hp.
    + destruct (split_first wildcard path) as [[x y] |] eqn:Hs; [| discriminate].
      intros E; injection E as <- <-.
      destruct (IH x eq_refl) as [-> Hfree]; split; [reflexivity |].
      unfold str_contains in *; rewrite split_first_unfold.
      destruct (String.prefix wildcard (String c x)) eqn:Hpx.
      * apply (prefix_app _ _ (wildcard ++ y)) in Hpx; cbn [append] in Hpx.
        rewrite Hpx in Hp; discriminate Hp.
      * destruct (split_first wildcard x) as [[? ?] |];
          [discriminate Hfree | reflexivity].
Qed.

(** [split] never returns an empty list. *)
Lemma split_char_nonempty (c : ascii) (s : string) : split_char c s <> [].
Proof.
  destruct s as [| a s]; cbn [split_char]; [discriminate |].
  destruct (Ascii.eqb a c); [discriminate |].
  destruct (split_char c s); discriminate.
Qed.

(** A mapping without the first key of a path resolves the path to
    [None]. *)
Lemma nested_value_missing (d : dict) (path : string) :
  dict_lookup d (hd "" (split_char "." path)) = None ->
  _get_nested_value (VDict d) path = VNone.
Proof.
  unfold _get_nested_value.
  destruct (split_char "." path) as [| key rest] eqn:E; cbn [hd walk_keys].
  - now elim (split_char_nonempty "." path).
  - intros ->; reflexivity.
Qed.

Lemma filter_all_dicts (items : list value) :
  forallb is_dict items = true -> filter is_dict items = items.
Proof.
  induction items as [| v items IH]; [reflexivity |]; cbn [forallb filter].
  intros E; apply andb_true_iff in E; destruct E as [Hv Hrest].
  rewrite Hv, (IH Hrest); reflexivity.
Qed.

(** C3, as the code has it: for a path [base[*]rest] the base is resolved
    first; a base that is no sequence gives the empty sequence; with an empty
    sub-path the base sequence itself is the result; otherwise the sub-path
    is resolved against each element that is a mapping, in input order, the
    other elements being skipped, and a mapping without the sub-field
    contributes [None]. *)
Theorem wildcard_resolution :
  forall (data : value) (base rest : string),
    str_contains wildcard base = false ->
    let sub := strip_dot rest in
    let resolved := _get_field_value data (VStr (base ++ wildcard ++ rest)) in
    resolved
    = match _get_nested_value data base with
      | VList items =>
          if String.eqb sub ""
          then VList items
          else VList (map (fun item => _get_nested_value item sub)
                          (filter is_dict items))
      | _ => VList []
      end
    /\ (is_list (_get_nested_value data base) = false -> resolved = VList [])
    /\ (forall items,
          _get_nested_value data base = VList items ->
          forallb is_dict items = true ->
          sub <> "" ->
          resolved = VList (map (fun item => _get_nested_value item sub) items))
    /\ (forall d,
          dict_lookup d (hd "" (split_char "." sub)) = None ->
          _get_nested_value (VDict d) sub = VNone).
Proof.
  intros data base rest Hfree sub resolved.
  assert (Hmain : resolved
    = match _get_nested_value data base with
      | VList items =>
          if String.eqb sub ""
          then VList items
          else VList (map (fun item => _get_nested_value item sub)
                          (filter is_dict items))
      | _ => VList []
      end).
  { subst resolved sub; cbn [_get_field_value]; unfold get_field_value_str.
    rewrite (split_at_marker base rest Hfree).
    destruct (_get_nested_value data base); try reflexivity.
    destruct (String.eqb (strip_dot rest) ""); reflexivity. }
  split; [exact Hmain | split; [| split]].
  - intros Hnl; rewrite Hmain.
    destruct (_get_nested_value data base); try reflexivity; discriminate Hnl.
  - intros items Hitems Hdicts Hsub; rewrite Hmain, Hitems.
    apply String.eqb_neq in Hsub; rewrite Hsub, (filter_all_dicts items Hdicts).
    reflexivity.
  - intros d; apply nested_value_missing.
Qed.

(** Two disks, the second without the field. *)
Lemma wildcard_resolution_witness :
  str_contains wildcard "hardware.disks" = false /\
  _get_field_value
    (VDict [("hardware",
             VDict [("disks", VList [VDict [("usage_percent", VInt 97)];
                                     VDict [("device", VStr "sdb")]])])])
    (VStr ("hardware.disks" ++ wildcard ++ ".usage_percent"))
  = VList [VInt 97; VNone].
Proof.
  split; [reflexivity |].
  exact (proj1 (wildcard_resolution
                  (VDict [("hardware",
                           VDict [("disks",
                                   VList [VDict [("usage_percent", VInt 97)];
                                          VDict [("device", VStr "sdb")]])])])
                  "hardware.disks" ".usage_percent" eq_refl)).
Defined.

(** C3 fails when the base is a sequence that holds something else than
    mappings: without a sub-path the sequence is returned as it is (the load
    averages of the CPU, a list of floats), with one the elements that are
    no mappings are dropped and the others resolved. *)
Lemma wildcard_keeps_mixed_sequence :
  let load := [VFloat 0.5; VFloat 0.25; VFloat 0.125] in
  let cpu := VDict [("hardware", VDict [("cpu", VDict [("load_average", VList load)])])] in
  let mixed := VDict [("a", VList [VDict [("x", VInt 1)]; VInt 5])] in
  _get_nested_value cpu "hardware.cpu.load_average" = VList load /\
  forallb is_dict load = false /\
  _get_field_value cpu (VStr "hardware.cpu.load_average[*]") = VList load /\
  VList load <> VList [] /\
  _get_nested_value mixed "a" = VList [VDict [("x", VInt 1)]; VInt 5] /\
  _get_field_value mixed (VStr "a[*].x") = VList [VInt 1].
Proof. repeat split; try reflexivity; discriminate. Qed.

(** ** The orchestrator *)

Section OrchestratorFacts.

Variable H : host.
Variable self : RuleEngine.

Lemma run_rules_step (snapshot : value) (rule : Rule.t) (rules : list Rule.t)
    (done : list RuleExecutionResult.t) :
  run_rules H self (rule :: rules) snapshot done
  = run_rules H self rules snapshot
      (done ++ [rule_outcome H self snapshot rule])%list.
Proof.
  cbn [run_rules]; unfold rule_outcome.
  destruct (_execute_single_rule H self rule snapshot); reflexivity.
Qed.

Lemma run_rules_spec (snapshot : value) (rules : list Rule.t)
    (done : list RuleExecutionResult.t) :
  run_rules H self rules snapshot done
  = Ret (done ++ map (rule_outcome H self snapshot) rules)%list.
Proof.
  revert done; induction rules as [| rule rules IH]; intros done.
  - cbn [run_rules map]; rewrite app_nil_r; reflexivity.
  - rewrite run_rules_step, IH, <- app_assoc; reflexivity.
Qed.

(** The loop never raises, so the outer handler of [execute_rules] is never
    taken. *)
Lemma execute_rules_spec (snapshot : value) :
  execute_rules H self snapshot
  = Ret (map (rule_outcome H self snapshot) (get_all_rules self)).
Proof. unfold execute_rules; rewrite run_rules_spec; reflexivity. Qed.

Lemma Forall2_map_right (A B : Type) (R : A -> B -> Prop) (f : A -> B)
    (l : list A) :
  (forall a, In a l -> R a (f a)) -> Forall2 R l (map f l).
Proof.
  induction l as [| a l IH]; intros Hall; cbn [map]; constructor.
  - apply Hall; left; reflexivity.
  - apply IH; intros x Hx; apply Hall; right; exact Hx.
Qed.


(** What a returning [_execute_single_rule] reports. *)
Lemma execute_single_rule_ret (rule : Rule.t) (snapshot : value)
    (result : RuleExecutionResult.t) :
  _execute_single_rule H self rule snapshot = Ret result ->
  RuleExecutionResult.rule_id result = Rule.rule_id rule /\
  RuleExecutionResult.confidence result
  = reported_confidence self rule (RuleExecutionResult.matched result).
Proof.
  unfold _execute_single_rule.
  destruct (_check_conditions H (Rule.conditions rule) snapshot)
    as [matched evidence].
  destruct (if matched
            then run_actions H rule evidence (Rule.actions rule) 0 [] []
            else Ret ([], [])) as [done | e]; cbn [bind catch].
  - intros E; injection E as <-; split; reflexivity.
  - discriminate.
Qed.


Lemma ltb_leb (x y : float) : (x <? y)%float = true -> (x <=? y)%float = true.
Proof.
  rewrite ltb_spec, leb_spec; unfold SFltb, SFleb.
  destruct (SFcompare (Prim2SF x) (Prim2SF y)) as [[| |] |];
    intros E; first [reflexivity | discriminate E].
Qed.

Lemma py_min_one_bounded (x : float) : (py_min 1 x <=? 1)%float = true.
Proof.
  unfold py_min; destruct (x <? 1)%float eqn:E.
  - apply ltb_leb, E.
  - reflexivity.
Qed.

Lemma reported_confidence_bounded (rule : Rule.t) (matched : bool) :
  (Rule.confidence rule <=? 1)%float = true ->
  (reported_confidence self rule matched <=? 1)%float = true.
Proof.
  intros Hbase; unfold reported_confidence.
  destruct matched; cbn [andb]; [| reflexivity].
  destruct (rule_confidence_threshold (config self) <? Rule.confidence rule)%float.
  - apply py_min_one_bounded.
  - exact Hbase.
Qed.

(** C5, as the code has it: the reported confidence of every result is 0.0
    when the rule is unmatched; when matched it is the base confidence if the
    base confidence does not exceed the threshold, and [min(1.0, base * 1.1)]
    if it does; it does not exceed 1.0 whenever the base confidence does
    not. *)
Theorem reported_confidence_rule :
  forall snapshot : value,
  exists results,
    execute_rules H self snapshot = Ret results /\
    Forall2
      (fun rule r =>
         let base := Rule.confidence rule in
         let threshold := rule_confidence_threshold (config self) in
         RuleExecutionResult.confidence r
         = (if RuleExecutionResult.matched r
            then if (threshold <? base)%float
                 then py_min 1 (base * boost)
                 else base
            else 0%float) /\
         ((base <=? 1)%float = true ->
          (RuleExecutionResult.confidence r <=? 1)%float = true))
      (get_all_rules self) results.
Proof.
  intros snapshot.
  exists (map (rule_outcome H self snapshot) (get_all_rules self)).
  split; [apply execute_rules_spec |].
  apply Forall2_map_right; intros rule _; cbv zeta.
  unfold rule_outcome.
  destruct (_execute_single_rule H self rule snapshot) as [result | e] eqn:E.
  - destruct (execute_single_rule_ret rule snapshot result E) as [_ Hconf].
    destruct result as [id matched conf ev acts issues time];
      cbn [RuleExecutionResult.set_execution_time RuleExecutionResult.confidence
           RuleExecutionResult.matched RuleExecutionResult.rule_id
           RuleExecutionResult.evidence RuleExecutionResult.actions_taken
           RuleExecutionResult.issues_found] in *.
    subst conf; split.
    + unfold reported_confidence; destruct matched; cbn [andb]; reflexivity.
    + apply reported_confidence_bounded.
  - split; [reflexivity | intros _; reflexivity].
Qed.

End OrchestratorFacts.

(** A rule that raises between two rules that do not: three results, the
    middle one unmatched and empty. *)
Example broken_rule_between_two :
  _execute_single_rule ExampleHost.example_host Examples.engine_with_broken_rule
    Examples.broken_rule Examples.busy_cpu = Raise ValidationError /\
  match execute_rules ExampleHost.example_host Examples.engine_with_broken_rule
          Examples.busy_cpu with
  | Ret results =>
      map Examples.summary results
      = [("hw_cpu_high_usage", true, default_confidence, 1%nat, 1%nat, 1%nat);
         ("remote_broken", false, 0%float, 0%nat, 0%nat, 0%nat);
         ("sys_too_many_processes", false, 0%float, 1%nat, 0%nat, 0%nat)]
  | Raise _ => False
  end.
Proof. split; vm_compute; reflexivity. Qed.

(** Boosting at work: a matched rule with base 0.9 over the threshold 0.8
    reports [0.9 * 1.1], and one with base 0.95 is capped at 1.0. *)
Example boost_and_cap :
  (py_min 1 (0x1.ccccccccccccdp-1 * boost) =? 0x1.fae147ae147afp-1)%float = true /\
  (py_min 1 (0x1.e666666666666p-1 * boost) =? 1)%float = true.
Proof. split; vm_compute; reflexivity. Qed.

(** C5 fails for a base confidence above 1.0 under a threshold that is not
    below it: the matched rule reports its base confidence 1.5. *)
Lemma reported_confidence_above_one :
  match execute_rules ExampleHost.example_host Examples.lenient_engine
          (VDict []) with
  | Ret [r] =>
      RuleExecutionResult.matched r = true /\
      RuleExecutionResult.confidence r = 1.5%float /\
      (1 <? RuleExecutionResult.confidence r)%float = true
  | _ => False
  end.
Proof. vm_compute; repeat split; reflexivity. Qed.

(** ** The remote rule loader *)

Section LoaderFacts.

Variable H : host.

(** The rules already loaded are kept, whatever happens in the loop. *)
Lemma append_rules_acc (records : list value) (acc : list Rule.t) :
  fst (append_rules H records acc)
  = (acc ++ fst (append_rules H records []))%list.
Proof.
  revert acc; induction records as [| rule_data rest IH]; intros acc.
  - cbn [append_rules fst]; rewrite app_nil_r; reflexivity.
  - cbn [append_rules].
    destruct (rule_of_record H rule_data) as [rule | e].
    + rewrite (IH (acc ++ [rule])%list), (IH ([] ++ [rule])%list).
      rewrite <- app_assoc; reflexivity.
    + cbn [fst]; rewrite app_nil_r; reflexivity.
Qed.

Lemma load_rule_file_acc (acc : list Rule.t) (f : rule_file) :
  load_rule_file H acc f = (acc ++ load_rule_file H [] f)%list.
Proof.
  unfold load_rule_file.
  destruct (file_data f) as [[| | | | | records | d] | e];
    try (rewrite app_nil_r; reflexivity).
  - apply append_rules_acc.
  - destruct (dict_lookup d "rules") as [rules |];
      [| rewrite app_nil_r; reflexivity].
    destruct (py_iter rules) as [records | e];
      [apply append_rules_acc | rewrite app_nil_r; reflexivity].
Qed.

Lemma load_all_acc (rule_files : list rule_file) (acc : list Rule.t) :
  fold_left (load_rule_file H) rule_files acc
  = (acc ++ List.concat (map (load_rule_file H []) rule_files))%list.
Proof.
  revert acc; induction rule_files as [| f rest IH]; intros acc.
  - cbn [fold_left map List.concat]; rewrite app_nil_r; reflexivity.
  - cbn [fold_left map List.concat].
    rewrite IH, load_rule_file_acc, <- app_assoc; reflexivity.
Qed.

(** The loop over the records stops at the first record that makes no
    rule, and keeps the rules made before it. *)
Lemma append_rules_until_failure (good : list value) (rules : list Rule.t)
    (rest : list value) :
  Forall2 (fun rule_data rule => rule_of_record H rule_data = Ret rule)
          good rules ->
  (forall bad e, rule_of_record H bad = Raise e ->
     fst (append_rules H (good ++ bad :: rest) []) = rules) /\
  fst (append_rules H good []) = rules.
Proof.
  induction 1 as [| rule_data rule good rules Hrule _ IH].
  - split; [| reflexivity].
    intros bad e Hbad; cbn [app append_rules]; rewrite Hbad; reflexivity.
  - destruct IH as [IHbad IHgood]; split.
    + intros bad e Hbad; cbn [app append_rules]; rewrite Hrule.
      rewrite append_rules_acc, (IHbad bad e Hbad); reflexivity.
    + cbn [append_rules]; rewrite Hrule, append_rules_acc, IHgood.
      reflexivity.
Qed.

Lemma load_rule_file_records (f : rule_file) (records : list value) :
  file_records f records ->
  load_rule_file H [] f = fst (append_rules H records []).
Proof.
  unfold load_rule_file.
  intros [Hf | (d & rules & Hf & Hrules & Hiter)]; rewrite Hf;
    [reflexivity |].
  rewrite Hrules, Hiter; reflexivity.
Qed.

Lemma load_rule_file_no_records (f : rule_file) :
  (forall records, ~ file_records f records) -> load_rule_file H [] f = [].
Proof.
  unfold load_rule_file, file_records; intros Hnone.
  destruct (file_data f) as [[| | | | | records | d] | e]; try reflexivity.
  - elim (Hnone records); left; reflexivity.
  - destruct (dict_lookup d "rules") as [rules |] eqn:Hr; [| reflexivity].
    destruct (py_iter rules) as [records | e] eqn:Hi; [| reflexivity].
    elim (Hnone records); right; exists d, rules; repeat split; assumption.
Qed.

(** C4, as the code has it: the loaded rules are the concatenation, in file
    order, of what each file gives on its own; a file that cannot be read or
    parsed gives no rule and leaves the rules of the other files as they
    are, and so does a file that holds neither a list nor a mapping with
    [rules]; a file that holds records, as a list or under [rules], gives the
    rules of the records before the first one that fails, all of them when
    none fails; one unreadable file between two files of one valid record
    each gives the two rules. *)
Theorem malformed_file_is_skipped :
  forall (self : RuleEngine) (rule_files : list rule_file),
    remote_rules (_load_cached_remote_rules H self (Some rule_files))
    = List.concat (map (load_rule_file H []) rule_files) /\
    (forall f e, file_data f = Raise e -> load_rule_file H [] f = []) /\
    (forall before bad after e,
       rule_files = (before ++ bad :: after)%list ->
       file_data bad = Raise e ->
       remote_rules (_load_cached_remote_rules H self (Some rule_files))
       = remote_rules
           (_load_cached_remote_rules H self (Some (before ++ after)%list))) /\
    (forall f good rules,
       Forall2 (fun rule_data rule => rule_of_record H rule_data = Ret rule)
               good rules ->
       (file_data f = Ret (VList good) -> load_rule_file H [] f = rules) /\
       (forall bad e rest,
          rule_of_record H bad = Raise e ->
          file_data f = Ret (VList (good ++ bad :: rest)) ->
          load_rule_file H [] f = rules) /\
       (file_records f good -> load_rule_file H [] f = rules) /\
       (forall bad e rest,
          rule_of_record H bad = Raise e ->
          file_records f (good ++ bad :: rest) ->
          load_rule_file H [] f = rules)) /\
    (forall f,
       (forall records, ~ file_records f records) ->
       load_rule_file H [] f = []) /\
    (forall first bad second record1 record2 rule1 rule2 e,
       rule_files = [first; bad; second] ->
       file_records first [record1] ->
       rule_of_record H record1 = Ret rule1 ->
       file_data bad = Raise e ->
       file_records second [record2] ->
       rule_of_record H record2 = Ret rule2 ->
       remote_rules (_load_cached_remote_rules H self (Some rule_files))
       = [rule1; rule2]).
Proof.
  intros self rule_files.
  assert (Hall : forall fs,
            remote_rules (_load_cached_remote_rules H self (Some fs))
            = List.concat (map (load_rule_file H []) fs)).
  { intros fs; cbn [_load_cached_remote_rules remote_rules].
    rewrite load_all_acc; reflexivity. }
  assert (Hskip : forall f e, file_data f = Raise e ->
                              load_rule_file H [] f = []).
  { intros f e Hf; unfold load_rule_file; rewrite Hf; reflexivity. }
  assert (Hrecords : forall f good rules,
            Forall2 (fun rule_data rule => rule_of_record H rule_data = Ret rule)
                    good rules ->
            (file_records f good -> load_rule_file H [] f = rules) /\
            (forall bad e rest,
               rule_of_record H bad = Raise e ->
               file_records f (good ++ bad :: rest) ->
               load_rule_file H [] f = rules)).
  { intros f good rules Hgood; split.
    - intros Hf; rewrite (load_rule_file_records f good Hf).
      exact (proj2 (append_rules_until_failure good rules [] Hgood)).
    - intros bad e rest Hbad Hf.
      rewrite (load_rule_file_records f _ Hf).
      exact (proj1 (append_rules_until_failure good rules rest Hgood)
                   bad e Hbad). }
  split; [apply Hall | split; [exact Hskip | split; [| split; [| split]]]].
  - intros before bad after e -> Hbad; rewrite !Hall.
    rewrite !map_app, !concat_app; cbn [map List.concat].
    rewrite (Hskip bad e Hbad); reflexivity.
  - intros f good rules Hgood.
    destruct (Hrecords f good rules Hgood) as [Hfull Hpart].
    split; [intros Hf; apply Hfull; left; exact Hf |].
    split; [intros bad e rest Hbad Hf; apply (Hpart bad e rest Hbad);
            left; exact Hf |].
    split; [exact Hfull | exact Hpart].
  - apply load_rule_file_no_records.
  - intros first bad second record1 record2 rule1 rule2 e -> H1 Hr1 Hbad H2 Hr2.
    rewrite Hall; cbn [map List.concat].
    rewrite (Hskip bad e Hbad).
    rewrite (proj1 (Hrecords first [record1] [rule1]
                      (Forall2_cons _ _ Hr1 (Forall2_nil _))) H1).
    rewrite (proj1 (Hrecords second [record2] [rule2]
                      (Forall2_cons _ _ Hr2 (Forall2_nil _))) H2).
    reflexivity.
Qed.

End LoaderFacts.

(** One file that is not JSON between two files of one rule each, one a
    list and one a mapping with [rules]: two rules are loaded. *)
Example invalid_file_among_two :
  let files :=
    [ {| file_path := "a.json";
         file_data := Ret (VList [Examples.rule_record "a"]) |};
      {| file_path := "b.json"; file_data := Raise ValueError |};
      {| file_path := "c.yaml";
         file_data := Ret (VDict [("rules", VList [Examples.rule_record "c"])]) |} ] in
  map Rule.rule_id
      (remote_rules
         (_load_cached_remote_rules ExampleHost.example_host
            Examples.lenient_engine (Some files)))
  = ["a"; "c"].
Proof. vm_compute; reflexivity. Qed.

(** C4 fails for a file that is malformed in a later record: the load of
    the file stops with an exception at the record without fields, and the
    rule of the record before it stays loaded. *)
Lemma malformed_file_contributes_rules :
  let records := [Examples.rule_record "a"; VDict []] in
  let f := {| file_path := "a.json"; file_data := Ret (VList records) |} in
  snd (append_rules ExampleHost.example_host records [])
  = Some ValidationError /\
  map Rule.rule_id
      (remote_rules
         (_load_cached_remote_rules ExampleHost.example_host
            Examples.lenient_engine (Some [f])))
  = ["a"].
Proof. split; vm_compute; reflexivity. Qed.

(** * Further properties of the engine *)

(** ** Dotted paths *)

Lemma split_char_app (c : ascii) (p q : string) :
  split_char c (p ++ String c q) = (split_char c p ++ split_char c q)%list.
Proof.
  induction p as [| a p IH]; cbn [append split_char].
  - rewrite Ascii.eqb_refl; reflexivity.
  - destruct (Ascii.eqb a c); rewrite IH; [reflexivity |].
    destruct (split_char c p) as [| w ws] eqn:E; [| reflexivity].
    now elim (split_char_nonempty c p).
Qed.

Lemma walk_keys_none (keys : list string) : walk_keys keys VNone = VNone.
Proof. destruct keys; reflexivity. Qed.

Lemma walk_keys_app (ks1 ks2 : list string) (v : value) :
  walk_keys (ks1 ++ ks2) v = walk_keys ks2 (walk_keys ks1 v).
Proof.
  revert v; induction ks1 as [| k ks1 IH]; intros v; [reflexivity |].
  cbn [app walk_keys].
  destruct v; try (rewrite walk_keys_none; reflexivity).
  destruct (dict_lookup d k); [apply IH | rewrite walk_keys_none; reflexivity].
Qed.

Lemma walk_keys_below_scalar (keys : list string) (v : value) :
  keys <> [] -> is_dict v = false -> walk_keys keys v = VNone.
Proof.
  destruct keys as [| k ks]; [intros E; now elim E |].
  intros _ Hv; destruct v; try reflexivity; discriminate Hv.
Qed.

(** X1: a dotted path resolves step by step: the value of [p.q] is the value
    of [q] inside the value of [p]; below a value that is no mapping (a
    scalar, a list, a missing key) every longer path gives [None]. *)
Theorem nested_value_composes :
  forall (data : value) (p q : string),
    _get_nested_value data (p ++ "." ++ q)
    = _get_nested_value (_get_nested_value data p) q /\
    (is_dict (_get_nested_value data p) = false ->
     _get_nested_value data (p ++ "." ++ q) = VNone).
Proof.
  intros data p q.
  assert (Hstep : _get_nested_value data (p ++ "." ++ q)
                  = _get_nested_value (_get_nested_value data p) q).
  { unfold _get_nested_value; cbn [append].
    rewrite split_char_app, walk_keys_app; reflexivity. }
  split; [exact Hstep |].
  intros Hnd; rewrite Hstep; unfold _get_nested_value at 1.
  apply walk_keys_below_scalar; [apply split_char_nonempty | exact Hnd].
Qed.

Example nested_value_steps :
  let data :=
    VDict [("hardware", VDict [("cpu", VDict [("usage_percent", VInt 95)])])] in
  _get_nested_value data "hardware.cpu.usage_percent" = VInt 95 /\
  _get_nested_value data "hardware.cpu.usage_percent.unit" = VNone /\
  _get_nested_value data "hardware.gpu.usage_percent" = VNone /\
  _get_nested_value data "" = VNone.
Proof. repeat split; reflexivity. Qed.

(** ** Wildcard paths under the comparison operators *)

Lemma wildcard_value_is_list (data : value) (path : string) :
  str_contains wildcard path = true ->
  is_list (get_field_value_str data path) = true.
Proof.
  unfold str_contains, get_field_value_str.
  destruct (split_first wildcard path) as [[base rest] |]; [| discriminate].
  intros _; destruct (_get_nested_value data base); try reflexivity.
  destruct (negb (String.eqb (strip_dot rest) "")); reflexivity.
Qed.

(** X2: a path that holds the wildcard marker always resolves to a
    sequence, never to [None] or to a scalar, whatever the snapshot. *)
Theorem wildcard_path_gives_list :
  forall (data : value) (path : string),
    str_contains wildcard path = true ->
    exists items, _get_field_value data (VStr path) = VList items.
Proof.
  intros data path Hw; cbn [_get_field_value].
  pose proof (wildcard_value_is_list data path Hw) as Hl.
  destruct (get_field_value_str data path); try discriminate Hl.
  eexists; reflexivity.
Qed.

Lemma wildcard_path_gives_list_witness :
  str_contains wildcard "system.processes[*].cpu_percent" = true /\
  exists items,
    _get_field_value (VDict []) (VStr "system.processes[*].cpu_percent")
    = VList items.
Proof.
  split; [reflexivity |].
  exact (wildcard_path_gives_list (VDict [])
           "system.processes[*].cpu_percent" eq_refl).
Defined.

Section ConditionFacts.

Variable H : host.

Lemma numeric_comparison_on_list (l : list value) (op t fc : value) :
  is_numeric_comparison op = true ->
  _evaluate_condition H (VList l) op t fc = Ret false.
Proof.
  unfold is_numeric_comparison; cbn [existsb].
  destruct op; cbn [op_is]; try discriminate.
  rewrite !orb_true_iff, !String.eqb_eq.
  intros [-> | [-> | [-> | [-> | E]]]]; try reflexivity; discriminate E.
Qed.

Lemma check_condition_matched (snapshot : value) (condition : dict) :
  fst (check_condition H snapshot condition) = true <->
  _evaluate_condition H
    (_get_field_value snapshot (condition_field condition))
    (condition_operator condition) (condition_value condition)
    (condition_field_check condition) = Ret true.
Proof.
  unfold check_condition, condition_field, condition_operator,
    condition_value, condition_field_check.
  destruct (_evaluate_condition H _ _ _ _) as [[|] | e]; cbn [fst];
    split; intros E; first [reflexivity | discriminate E].
Qed.

Lemma check_loop_spec (snapshot : value) (conditions : list dict)
    (all_matched : bool) (evidence : list string) :
  check_loop H snapshot conditions all_matched evidence
  = (all_matched &&
     forallb (fun c => fst (check_condition H snapshot c)) conditions,
     (evidence ++ map (fun c => snd (check_condition H snapshot c)) conditions)%list).
Proof.
  revert all_matched evidence.
  induction conditions as [| c rest IH]; intros all_matched evidence.
  - cbn [check_loop forallb map]; rewrite andb_true_r, app_nil_r; reflexivity.
  - cbn [check_loop forallb map].
    destruct (check_condition H snapshot c) as [matched line]; cbn [fst snd].
    rewrite IH, <- app_assoc; cbn [app].
    destruct matched, all_matched; reflexivity.
Qed.

(** X5: the conditions of a rule are a conjunction without short cut: the
    rule matches exactly when every condition evaluates to matched (a
    missing operator counts as [==], a missing field as the empty path), and
    the evidence holds one line for each condition, in the order of the
    conditions, also after one of them failed. *)
Theorem check_conditions_is_conjunction :
  forall (conditions : list dict) (snapshot : value),
    (fst (_check_conditions H conditions snapshot) = true <->
     Forall (fun c =>
               _evaluate_condition H
                 (_get_field_value snapshot (condition_field c))
                 (condition_operator c) (condition_value c)
                 (condition_field_check c) = Ret true) conditions) /\
    List.length (snd (_check_conditions H conditions snapshot))
    = List.length conditions /\
    snd (_check_conditions H conditions snapshot)
    = map (fun c => snd (check_condition H snapshot c)) conditions.
Proof.
  intros conditions snapshot; unfold _check_conditions.
  rewrite check_loop_spec; cbn [fst snd andb app].
  split; [| split; [apply length_map | reflexivity]].
  rewrite forallb_forall, Forall_forall.
  split; intros Hall c Hc; apply check_condition_matched, Hall, Hc.
Qed.

Lemma check_conditions_unmatched (conditions : list dict) (snapshot : value)
    (c : dict) :
  In c conditions ->
  fst (check_condition H snapshot c) = false ->
  fst (_check_conditions H conditions snapshot) = false.
Proof.
  intros Hin Hc; unfold _check_conditions.
  rewrite check_loop_spec; cbn [fst andb].
  destruct (forallb _ conditions) eqn:E; [| reflexivity].
  rewrite forallb_forall in E; rewrite (E c Hin) in Hc; discriminate Hc.
Qed.

Lemma wildcard_comparison_unmatched (snapshot : value) (c : dict)
    (path : string) :
  condition_field c = VStr path ->
  str_contains wildcard path = true ->
  is_numeric_comparison (condition_operator c) = true ->
  fst (check_condition H snapshot c) = false.
Proof.
  intros Hfield Hw Hop.
  destruct (fst (check_condition H snapshot c)) eqn:E; [| reflexivity].
  apply check_condition_matched in E; rewrite Hfield in E.
  cbn [_get_field_value] in E.
  pose proof (wildcard_value_is_list snapshot path Hw) as Hl.
  destruct (get_field_value_str snapshot path); try discriminate Hl.
  rewrite (numeric_comparison_on_list _ _ _ _ Hop) in E; discriminate E.
Qed.

(** X3: a condition that puts [>], [<], [>=] or [<=] on a wildcard path can
    never match, since the path gives a sequence and [float] refuses it; a
    rule that holds such a condition is unmatched on every snapshot. *)
Theorem wildcard_comparison_never_matches :
  forall (conditions : list dict) (c : dict) (path : string)
         (snapshot : value),
    In c conditions ->
    condition_field c = VStr path ->
    str_contains wildcard path = true ->
    is_numeric_comparison (condition_operator c) = true ->
    fst (_check_conditions H conditions snapshot) = false.
Proof.
  intros conditions c path snapshot Hin Hfield Hw Hop.
  apply (check_conditions_unmatched conditions snapshot c Hin).
  apply (wildcard_comparison_unmatched snapshot c path Hfield Hw Hop).
Qed.

End ConditionFacts.

(** A full disk does not make the disk condition match. *)
Lemma wildcard_comparison_never_matches_witness :
  let c := [("field", VStr "hardware.disks[*].usage_percent");
            ("operator", VStr ">"); ("value", VInt 95)] in
  let snapshot :=
    VDict [("hardware",
            VDict [("disks", VList [VDict [("usage_percent", VFloat 99)]])])] in
  In c [c] /\
  fst (_check_conditions ExampleHost.example_host [c] snapshot) = false.
Proof.
  split; [left; reflexivity |].
  exact (wildcard_comparison_never_matches ExampleHost.example_host
           [[("field", VStr "hardware.disks[*].usage_percent");
             ("operator", VStr ">"); ("value", VInt 95)]]
           [("field", VStr "hardware.disks[*].usage_percent");
            ("operator", VStr ">"); ("value", VInt 95)]
           "hardware.disks[*].usage_percent"
           (VDict [("hardware",
                    VDict [("disks",
                            VList [VDict [("usage_percent", VFloat 99)]])])])
           (or_introl eq_refl) eq_refl eq_refl eq_refl).
Defined.

(** ** Actions and issues of one rule *)

Section ActionFacts.

Variable H : host.
Variable self : RuleEngine.

(** Only [create_issue] builds an issue, and only it can fail. *)
Lemma execute_action_other (action : dict) (rule : Rule.t)
    (evidence : list string) (i : nat) :
  is_create_issue action = false ->
  exists r, _execute_action H action rule evidence i = Ret r /\
            result_issue r = None.
Proof.
  unfold is_create_issue, _execute_action; intros ->.
  destruct (op_is (dict_get action "type" (VStr "")) "log");
    eexists; split; reflexivity.
Qed.

Lemma execute_action_create (action : dict) (rule : Rule.t)
    (evidence : list string) (i : nat) (r : action_result) :
  is_create_issue action = true ->
  _execute_action H action rule evidence i = Ret r ->
  exists issue, result_issue r = Some issue /\
                issue_of_rule rule evidence issue.
Proof.
  unfold is_create_issue, _execute_action; intros ->.
  destruct (validate_str H (dict_get action "severity" _)) as [sev | e];
    cbn [bind]; [| discriminate].
  destruct (validate_str H (dict_get action "message" _)) as [msg | e];
    cbn [bind]; [| discriminate].
  destruct (validate_str H (dict_get action "recommendation" _)) as [rec | e];
    cbn [bind]; [| discriminate].
  intros E; injection E as <-; cbn [result_issue].
  eexists; split; [reflexivity |].
  unfold issue_of_rule; cbn.
  repeat split; eexists; reflexivity.
Qed.

Lemma run_actions_ok (rule : Rule.t) (evidence : list string)
    (todo : list dict) :
  forall (i : nat) (taken : list string) (issues : list DiagnosisIssue.t)
         (taken' : list string) (issues' : list DiagnosisIssue.t),
    run_actions H rule evidence todo i taken issues = Ret (taken', issues') ->
    exists new_taken new_issues,
      taken' = (taken ++ new_taken)%list /\
      issues' = (issues ++ new_issues)%list /\
      List.length new_taken = List.length todo /\
      List.length new_issues = List.length (filter is_create_issue todo) /\
      Forall (issue_of_rule rule evidence) new_issues.
Proof.
  induction todo as [| action rest IH]; intros i taken issues taken' issues'.
  - cbn [run_actions]; intros E; injection E as <- <-.
    exists [], []; rewrite !app_nil_r; repeat split; constructor.
  - cbn [run_actions filter].
    destruct (_execute_action H action rule evidence i) as [r | e] eqn:Hr;
      cbn [bind]; [| discriminate].
    intros Hrest; apply IH in Hrest.
    destruct Hrest as (nt & ni & -> & -> & Hlen & Hcount & Hall).
    destruct (is_create_issue action) eqn:Hc.
    + destruct (execute_action_create action rule evidence i r Hc Hr)
        as (issue & -> & Hissue).
      exists (result_description r :: nt), (issue :: ni).
      rewrite <- !app_assoc; cbn [app List.length].
      repeat split; try congruence; constructor; assumption.
    + destruct (execute_action_other action rule evidence i Hc)
        as (r' & Hr' & Hnone).
      rewrite Hr in Hr'; injection Hr' as <-; rewrite Hnone.
      exists (result_description r :: nt), ni.
      rewrite <- !app_assoc; cbn [app List.length].
      repeat split; try congruence; assumption.
Qed.

Lemma run_actions_returns (rule : Rule.t) (evidence : list string)
    (todo : list dict) :
  existsb is_create_issue todo = false ->
  forall i taken issues,
    returns (run_actions H rule evidence todo i taken issues).
Proof.
  induction todo as [| action rest IH]; cbn [existsb run_actions].
  - intros _ i taken issues; eexists; reflexivity.
  - intros E i taken issues; apply orb_false_elim in E; destruct E as [Hc Hrest].
    destruct (execute_action_other action rule evidence i Hc) as (r & -> & _).
    cbn [bind]; apply IH, Hrest.
Qed.

(** The result of a rule in terms of its conditions and of the loop over
    its actions. *)
Lemma execute_single_rule_inv (rule : Rule.t) (snapshot : value)
    (r : RuleExecutionResult.t) :
  _execute_single_rule H self rule snapshot = Ret r ->
  let checked := _check_conditions H (Rule.conditions rule) snapshot in
  RuleExecutionResult.matched r = fst checked /\
  RuleExecutionResult.evidence r = snd checked /\
  (if fst checked
   then run_actions H rule (snd checked) (Rule.actions rule) 0 [] []
   else Ret ([], []))
  = Ret (RuleExecutionResult.actions_taken r,
         RuleExecutionResult.issues_found r).
Proof.
  unfold _execute_single_rule; cbv zeta.
  destruct (_check_conditions H (Rule.conditions rule) snapshot)
    as [matched evidence]; cbn [fst snd].
  destruct (if matched
            then run_actions H rule evidence (Rule.actions rule) 0 [] []
            else Ret ([], [])) as [[taken issues] | e]; cbn [bind catch].
  - intros E; injection E as <-; repeat split; reflexivity.
  - discriminate.
Qed.

Lemma execute_single_rule_unmatched (rule : Rule.t) (snapshot : value) :
  fst (_check_conditions H (Rule.conditions rule) snapshot) = false ->
  exists r,
    _execute_single_rule H self rule snapshot = Ret r /\
    RuleExecutionResult.matched r = false /\
    RuleExecutionResult.confidence r = 0%float /\
    RuleExecutionResult.actions_taken r = [] /\
    RuleExecutionResult.issues_found r = [].
Proof.
  unfold _execute_single_rule.
  destruct (_check_conditions H (Rule.conditions rule) snapshot)
    as [matched evidence]; cbn [fst]; intros ->; cbn [bind catch].
  eexists; split; [reflexivity |]; repeat split; reflexivity.
Qed.

(** X6: when a rule returns a result, its evidence has one line for each
    condition; an unmatched rule took no action and found no issue; a
    matched rule took every action, one description for each, and found one
    issue for each [create_issue] action, none for the other kinds. *)
Theorem rule_result_counts :
  forall (rule : Rule.t) (snapshot : value) (r : RuleExecutionResult.t),
    _execute_single_rule H self rule snapshot = Ret r ->
    List.length (RuleExecutionResult.evidence r)
    = List.length (Rule.conditions rule) /\
    (RuleExecutionResult.matched r = false ->
     RuleExecutionResult.actions_taken r = [] /\
     RuleExecutionResult.issues_found r = []) /\
    (RuleExecutionResult.matched r = true ->
     List.length (RuleExecutionResult.actions_taken r)
     = List.length (Rule.actions rule) /\
     List.length (RuleExecutionResult.issues_found r)
     = List.length (filter is_create_issue (Rule.actions rule))).
Proof.
  intros rule snapshot r Hr.
  destruct (execute_single_rule_inv rule snapshot r Hr) as (Hm & Hev & Hrun).
  split; [| split].
  - rewrite Hev; unfold _check_conditions; rewrite check_loop_spec.
    cbn [snd app]; apply length_map.
  - intros Hfalse; rewrite Hm in Hfalse; rewrite Hfalse in Hrun.
    injection Hrun as <- <-; split; reflexivity.
  - intros Htrue; rewrite Hm in Htrue; rewrite Htrue in Hrun.
    apply run_actions_ok in Hrun.
    destruct Hrun as (nt & ni & -> & -> & Hlen & Hcount & _).
    cbn [app]; split; assumption.
Qed.

(** X7: every issue of a result carries the base confidence of its rule,
    not the boosted confidence of the result, the category of the rule, the
    name of the rule as its title, the full evidence of the run, and an
    identifier that starts with the rule identifier and an underscore. *)
Theorem issues_carry_rule_data :
  forall (rule : Rule.t) (snapshot : value) (r : RuleExecutionResult.t),
    _execute_single_rule H self rule snapshot = Ret r ->
    Forall (issue_of_rule rule (RuleExecutionResult.evidence r))
           (RuleExecutionResult.issues_found r).
Proof.
  intros rule snapshot r Hr.
  destruct (execute_single_rule_inv rule snapshot r Hr) as (_ & Hev & Hrun).
  rewrite Hev.
  destruct (fst (_check_conditions H (Rule.conditions rule) snapshot)).
  - apply run_actions_ok in Hrun.
    destruct Hrun as (nt & ni & _ & -> & _ & _ & Hall); exact Hall.
  - injection Hrun as _ <-; constructor.
Qed.

(** X8: a rule raises only when its conditions matched and one of its
    actions is a [create_issue]: an unmatched rule, and a rule whose actions
    are all of another kind (known or not), always return a result. *)
Theorem only_create_issue_raises :
  forall (rule : Rule.t) (snapshot : value) (e : exn),
    _execute_single_rule H self rule snapshot = Raise e ->
    fst (_check_conditions H (Rule.conditions rule) snapshot) = true /\
    existsb is_create_issue (Rule.actions rule) = true.
Proof.
  intros rule snapshot e.
  destruct (fst (_check_conditions H (Rule.conditions rule) snapshot)) eqn:Hm.
  - intros Hraise; split; [reflexivity |].
    destruct (existsb is_create_issue (Rule.actions rule)) eqn:Hc;
      [reflexivity |].
    revert Hraise; unfold _execute_single_rule.
    destruct (_check_conditions H (Rule.conditions rule) snapshot)
      as [matched evidence]; cbn [fst] in Hm; subst matched.
    destruct (run_actions_returns rule evidence (Rule.actions rule) Hc 0%nat [] [])
      as (done & ->).
    cbn [bind catch]; discriminate.
  - destruct (execute_single_rule_unmatched rule snapshot Hm) as (r & -> & _).
    discriminate.
Qed.

End ActionFacts.

Lemma rule_result_counts_witness :
  exists r,
    _execute_single_rule ExampleHost.example_host
      Examples.engine_with_broken_rule
      (nth 0 BuiltinRules.get_hardware_rules Examples.broken_rule)
      Examples.busy_cpu = Ret r /\
    List.length (RuleExecutionResult.evidence r) = 1%nat.
Proof.
  eexists; split; [vm_compute; reflexivity |].
  refine (proj1 (rule_result_counts ExampleHost.example_host
                   Examples.engine_with_broken_rule
                   (nth 0 BuiltinRules.get_hardware_rules Examples.broken_rule)
                   Examples.busy_cpu _ _)).
  vm_compute; reflexivity.
Defined.

Lemma issues_carry_rule_data_witness :
  exists r,
    _execute_single_rule ExampleHost.example_host
      Examples.engine_with_broken_rule
      (nth 0 BuiltinRules.get_hardware_rules Examples.broken_rule)
      Examples.busy_cpu = Ret r /\
    Forall (issue_of_rule
              (nth 0 BuiltinRules.get_hardware_rules Examples.broken_rule)
              (RuleExecutionResult.evidence r))
           (RuleExecutionResult.issues_found r).
Proof.
  eexists; split; [vm_compute; reflexivity |].
  refine (issues_carry_rule_data ExampleHost.example_host
            Examples.engine_with_broken_rule
            (nth 0 BuiltinRules.get_hardware_rules Examples.broken_rule)
            Examples.busy_cpu _ _).
  vm_compute; reflexivity.
Defined.

Lemma only_create_issue_raises_witness :
  _execute_single_rule ExampleHost.example_host
    Examples.engine_with_broken_rule Examples.broken_rule Examples.busy_cpu
  = Raise ValidationError /\
  existsb is_create_issue (Rule.actions Examples.broken_rule) = true.
Proof.
  assert (Hraise :
    _execute_single_rule ExampleHost.example_host
      Examples.engine_with_broken_rule Examples.broken_rule Examples.busy_cpu
    = Raise ValidationError) by (vm_compute; reflexivity).
  split; [exact Hraise |].
  exact (proj2 (only_create_issue_raises ExampleHost.example_host
                  Examples.engine_with_broken_rule Examples.broken_rule
                  Examples.busy_cpu ValidationError Hraise)).
Defined.

(** ** The built-in rules at run time *)

Section BuiltinFacts.

Variable H : host.

Lemma builtin_rules_default_confidence :
  Forall (fun rule => Rule.confidence rule = default_confidence /\
                      Rule.enabled rule = true)
         BuiltinRules.get_all_builtin_rules.
Proof. repeat constructor. Qed.

(** X4: the built-in rules [hw_disk_full] and [sys_high_cpu_process] compare
    a wildcard path with [>]; they are unmatched on every snapshot and
    create no issue, however full a disk or busy a process is. *)
Theorem builtin_wildcard_rules_never_match :
  forall (self : RuleEngine) (snapshot : value) (rule : Rule.t),
    In rule BuiltinRules.get_all_builtin_rules ->
    Rule.rule_id rule = "hw_disk_full" \/
    Rule.rule_id rule = "sys_high_cpu_process" ->
    exists r,
      _execute_single_rule H self rule snapshot = Ret r /\
      RuleExecutionResult.matched r = false /\
      RuleExecutionResult.confidence r = 0%float /\
      RuleExecutionResult.actions_taken r = [] /\
      RuleExecutionResult.issues_found r = [].
Proof.
  intros self snapshot rule Hin Hid.
  apply execute_single_rule_unmatched.
  unfold BuiltinRules.get_all_builtin_rules, BuiltinRules.get_hardware_rules,
    BuiltinRules.get_system_rules, BuiltinRules.get_network_rules in Hin.
  cbn [app In] in Hin.
  repeat (destruct Hin as [<- | Hin]);
    try (now elim Hin);
    unfold BuiltinRules.builtin in *; cbn [Rule.rule_id Rule.conditions] in *;
    (destruct Hid as [Hid | Hid]; try discriminate Hid);
    (eapply check_conditions_unmatched; [left; reflexivity |]);
    (eapply wildcard_comparison_unmatched; reflexivity).
Qed.

(** A fresh engine runs the built-in rules, all of them enabled, or no rule
    at all. *)
Lemma execute_rules_builtin (cfg : RuleEngineConfiguration)
    (snapshot : value) :
  execute_rules H (engine (RuleEngine_init cfg)) snapshot
  = Ret (map (rule_outcome H (engine (RuleEngine_init cfg)) snapshot)
             (if enable_builtin_rules cfg
              then BuiltinRules.get_all_builtin_rules
              else [])).
Proof.
  rewrite execute_rules_spec; f_equal; f_equal.
  unfold get_all_rules, RuleEngine_init;
    cbn [engine config builtin_rules remote_rules].
  destruct (enable_builtin_rules cfg), (enable_remote_rules cfg);
    reflexivity.
Qed.

(** X9: an engine as its constructor leaves it, under the default threshold
    0.8, never boosts: the built-in rules have the base confidence 0.8, which
    is not above the threshold, so every result reports 0.8 when matched and
    0.0 when not; there are ten results, or none when the built-in rules are
    switched off. *)
Theorem builtin_rules_are_never_boosted :
  forall (cfg : RuleEngineConfiguration) (snapshot : value),
    rule_confidence_threshold cfg = default_confidence ->
    exists results,
      execute_rules H (engine (RuleEngine_init cfg)) snapshot = Ret results /\
      List.length results
      = (if enable_builtin_rules cfg then 10%nat else 0%nat) /\
      Forall (fun r =>
                RuleExecutionResult.confidence r
                = if RuleExecutionResult.matched r
                  then default_confidence
                  else 0%float) results.
Proof.
  intros cfg snapshot Hthr.
  eexists; split; [apply execute_rules_builtin | split].
  - rewrite length_map; destruct (enable_builtin_rules cfg); reflexivity.
  - apply Forall_forall; intros r Hr; apply in_map_iff in Hr.
    destruct Hr as (rule & <- & Hin).
    assert (Hrule : Rule.confidence rule = default_confidence).
    { destruct (enable_builtin_rules cfg); [| now elim Hin].
      pose proof builtin_rules_default_confidence as Hall.
      rewrite Forall_forall in Hall; apply (Hall rule Hin). }
    unfold rule_outcome.
    destruct (_execute_single_rule H _ rule snapshot) as [res | e] eqn:E;
      [| reflexivity].
    destruct (execute_single_rule_ret H _ rule snapshot res E) as [_ Hconf].
    destruct res as [id matched conf ev acts issues time];
      cbn [RuleExecutionResult.set_execution_time RuleExecutionResult.confidence
           RuleExecutionResult.matched] in *.
    subst conf; unfold reported_confidence, RuleEngine_init;
      cbn [engine config]; rewrite Hthr, Hrule.
    destruct matched; reflexivity.
Qed.

End BuiltinFacts.

Lemma builtin_wildcard_rules_never_match_witness :
  In (nth 2 BuiltinRules.get_hardware_rules Examples.broken_rule)
     BuiltinRules.get_all_builtin_rules /\
  exists r,
    _execute_single_rule ExampleHost.example_host
      Examples.engine_with_broken_rule
      (nth 2 BuiltinRules.get_hardware_rules Examples.broken_rule)
      (VDict [("hardware",
               VDict [("disks", VList [VDict [("usage_percent", VFloat 99)]])])])
    = Ret r /\
    RuleExecutionResult.matched r = false /\
    RuleExecutionResult.confidence r = 0%float /\
    RuleExecutionResult.actions_taken r = [] /\
    RuleExecutionResult.issues_found r = [].
Proof.
  assert (Hin : In (nth 2 BuiltinRules.get_hardware_rules Examples.broken_rule)
                   BuiltinRules.get_all_builtin_rules)
    by (right; right; left; reflexivity).
  split; [exact Hin |].
  exact (builtin_wildcard_rules_never_match ExampleHost.example_host
           Examples.engine_with_broken_rule
           (VDict [("hardware",
                    VDict [("disks",
                            VList [VDict [("usage_percent", VFloat 99)]])])])
           (nth 2 BuiltinRules.get_hardware_rules Examples.broken_rule)
           Hin (or_introl eq_refl)).
Defined.

Lemma builtin_rules_are_never_boosted_witness :
  rule_confidence_threshold Examples.default_config = default_confidence /\
  exists results,
    execute_rules ExampleHost.example_host
      (engine (RuleEngine_init Examples.default_config)) Examples.busy_cpu
    = Ret results /\
    List.length results = 10%nat /\
    Forall (fun r =>
              RuleExecutionResult.confidence r
              = if RuleExecutionResult.matched r
                then default_confidence
                else 0%float) results.
Proof.
  split; [reflexivity |].
  exact (builtin_rules_are_never_boosted ExampleHost.example_host
           Examples.default_config Examples.busy_cpu eq_refl).
Defined.

(** ** The rule store and its statistics *)

(** X10: the rules the engine works with are the enabled rules of the
    sources that are switched on, the built-in ones before the remote ones,
    each source in its own order; [get_rules_by_category] selects among them
    the rules of one category. *)
Theorem rule_store_membership :
  forall (self : RuleEngine) (rule : Rule.t) (category : string),
    (In rule (get_all_rules self) <->
     Rule.enabled rule = true /\
     ((enable_builtin_rules (config self) = true /\
       In rule (builtin_rules self)) \/
      (enable_remote_rules (config self) = true /\
       In rule (remote_rules self)))) /\
    get_all_rules self
    = (filter Rule.enabled
         (if enable_builtin_rules (config self) then builtin_rules self else [])
       ++ filter Rule.enabled
            (if enable_remote_rules (config self) then remote_rules self else []))%list /\
    (In rule (get_rules_by_category self category) <->
     In rule (get_all_rules self) /\ Rule.category rule = category).
Proof.
  intros self rule category; split; [| split].
  - unfold get_all_rules; rewrite filter_In, in_app_iff.
    destruct (enable_builtin_rules (config self)),
      (enable_remote_rules (config self)); cbn [In]; intuition congruence.
  - unfold get_all_rules; apply filter_app.
  - unfold get_rules_by_category; rewrite filter_In, String.eqb_eq.
    reflexivity.
Qed.

Lemma counter_get_set (c : counter) (k k' : string) (n : Z) :
  counter_get (counter_set c k n) k'
  = if String.eqb k k' then Some n else counter_get c k'.
Proof.
  induction c as [| [a m] rest IH]; cbn [counter_set counter_get].
  - reflexivity.
  - destruct (String.eqb a k) eqn:Hak; cbn [counter_get].
    + apply String.eqb_eq in Hak; subst a.
      destruct (String.eqb k k'); reflexivity.
    + rewrite IH.
      destruct (String.eqb a k') eqn:Hak'; [| reflexivity].
      apply String.eqb_eq in Hak'; subst k'.
      rewrite String.eqb_sym, Hak; reflexivity.
Qed.


Lemma counter_get_tally (c : counter) (k k' : string) :
  counter_get (tally c k) k'
  = if String.eqb k k'
    then Some (match counter_get c k with Some n => n + 1 | None => 1 end)
    else counter_get c k'.
Proof.
  unfold tally.
  destruct (counter_get c k) as [n |] eqn:Hk.
  - rewrite Hk, counter_get_set; reflexivity.
  - rewrite (counter_get_set c k k 0), String.eqb_refl, !counter_get_set.
    destruct (String.eqb k k'); reflexivity.
Qed.


Lemma tally_all_get (key_of : Rule.t -> string) (key : string)
    (rules : list Rule.t) (c : counter) :
  counter_get (fold_left (fun c rule => tally c (key_of rule)) rules c) key
  = match counter_get c key with
    | Some n => Some (n + occurrences key_of key rules)
    | None =>
        if occurrences key_of key rules =? 0 then None
        else Some (occurrences key_of key rules)
    end.
Proof.
  revert c; induction rules as [| rule rest IH]; intros c.
  - cbn [fold_left]; unfold occurrences; cbn [filter List.length Z.of_nat].
    destruct (counter_get c key); [f_equal; lia | reflexivity].
  - cbn [fold_left]; rewrite IH, counter_get_tally.
    unfold occurrences; cbn [filter].
    destruct (String.eqb (key_of rule) key) eqn:Hk.
    + apply String.eqb_eq in Hk; rewrite Hk.
      cbn [List.length]; rewrite Nat2Z.inj_succ.
      destruct (counter_get c key) as [n |].
      * f_equal; lia.
      * destruct (Z.eqb_spec (Z.succ (Z.of_nat (List.length
                    (filter (fun r => String.eqb (key_of r) key) rest)))) 0);
          [lia | f_equal; lia].
    + reflexivity.
Qed.


Lemma counter_dict_lookup (c : counter) (key : string) :
  dict_lookup (map (fun kn => (fst kn, VInt (snd kn))) c) key
  = option_map VInt (counter_get c key).
Proof.
  induction c as [| [k n] rest IH]; [reflexivity |].
  cbn [map dict_lookup counter_get fst snd].
  destruct (String.eqb k key); [reflexivity | exact IH].
Qed.


(** X11: the statistics count every category as [get_rules_by_category]
    does: [by_category] holds, for a category, the number of enabled rules of
    that category, and no entry for a category without rules; [by_severity]
    counts the severities of those same rules in the same way. *)
Theorem statistics_count_rules_by_key :
  forall (isoformat : Z -> string) (self : EngineState) (key : string),
    let stats := get_rule_statistics isoformat self in
    let rules := get_all_rules (engine self) in
    let in_category :=
      Z.of_nat (List.length (get_rules_by_category (engine self) key)) in
    let of_severity :=
      Z.of_nat (List.length
                  (filter (fun rule => String.eqb (Rule.severity rule) key)
                          rules)) in
    stat_count stats "by_category" key
    = (if in_category =? 0 then None else Some (VInt in_category)) /\
    stat_count stats "by_severity" key
    = (if of_severity =? 0 then None else Some (VInt of_severity)).
Proof.
  intros isoformat self key; cbv zeta.
  unfold stat_count, stat, get_rule_statistics, counter_dict, count_by.
  cbn [dict_lookup String.eqb Ascii.eqb Bool.eqb].
  rewrite !counter_dict_lookup, !tally_all_get; cbn [counter_get].
  unfold occurrences, get_rules_by_category.
  split;
    match goal with
    | |- context [?n =? 0] => destruct (n =? 0); reflexivity
    end.
Qed.


Example statistics_of_fresh_engine :
  let stats :=
    get_rule_statistics (fun _ => "")
      (RuleEngine_init Examples.default_config) in
  stat stats "total_rules" = Some (VInt 10) /\
  stat stats "by_category"
  = Some (VDict [("hardware", VInt 4); ("system", VInt 3); ("network", VInt 3)]) /\
  stat stats "by_severity"
  = Some (VDict [("high", VInt 3); ("critical", VInt 3); ("medium", VInt 4)]) /\
  stat stats "last_remote_update" = Some VNone.
Proof. repeat split; vm_compute; reflexivity. Qed.

(** ** The remaining operators *)

Lemma SFcompare_swap (x y : spec_float) :
  SFcompare y x = option_map CompOpp (SFcompare x y).
Proof.
  destruct x as [sx | sx | | sx mx ex], y as [sy | sy | | sy my ey];
    cbn [SFcompare option_map]; try reflexivity;
    try (destruct sx; reflexivity); try (destruct sy; reflexivity);
    try (destruct sx, sy; reflexivity).
  destruct sx, sy; cbn [CompOpp]; try reflexivity;
    rewrite (Z.compare_antisym ex ey); destruct (ex ?= ey);
    cbn [CompOpp]; try reflexivity.
  - do 2 f_equal; symmetry; exact (Pos.compare_cont_antisym mx my Eq).
  - f_equal; symmetry; exact (Pos.compare_cont_antisym mx my Eq).
Qed.

Lemma ltb_not_leb (x y : float) :
  (x <? y)%float = true -> (y <=? x)%float = false.
Proof.
  rewrite ltb_spec, leb_spec; unfold SFltb, SFleb.
  rewrite (SFcompare_swap (Prim2SF x) (Prim2SF y)).
  destruct (SFcompare (Prim2SF x) (Prim2SF y)) as [[| |] |];
    cbn [option_map CompOpp]; intros E; first [reflexivity | discriminate E].
Qed.

Lemma ltb_not_ltb (x y : float) :
  (x <? y)%float = true -> (y <? x)%float = false.
Proof.
  rewrite !ltb_spec; unfold SFltb.
  rewrite (SFcompare_swap (Prim2SF x) (Prim2SF y)).
  destruct (SFcompare (Prim2SF x) (Prim2SF y)) as [[| |] |];
    cbn [option_map CompOpp]; intros E; first [reflexivity | discriminate E].
Qed.

Section OperatorFacts.

Variable H : host.

(** The four comparisons coerce both sides, then compare the floats. *)
Lemma comparison_bodies (fv t fc : value) :
  let coerced (test : float -> float -> bool) :=
    catch (a <- to_float H fv ;; b <- to_float H t ;; Ret (test a b))
          (fun _ => Ret false) in
  _evaluate_condition H fv (VStr ">") t fc
  = coerced (fun a b => (b <? a)%float) /\
  _evaluate_condition H fv (VStr "<") t fc
  = coerced (fun a b => (a <? b)%float) /\
  _evaluate_condition H fv (VStr ">=") t fc
  = coerced (fun a b => (b <=? a)%float) /\
  _evaluate_condition H fv (VStr "<=") t fc
  = coerced (fun a b => (a <=? b)%float).
Proof. repeat split; reflexivity. Qed.

(** X14: the comparison operators agree with each other on every field
    value and target: when [>] matches, [>=] matches and [<] and [<=] do
    not; when [<] matches, [<=] matches and [>] and [>=] do not; and [!=]
    matches exactly when [==] does not. *)
Theorem comparison_operators_agree :
  forall fv t fc : value,
    (_evaluate_condition H fv (VStr ">") t fc = Ret true ->
     _evaluate_condition H fv (VStr ">=") t fc = Ret true /\
     _evaluate_condition H fv (VStr "<") t fc = Ret false /\
     _evaluate_condition H fv (VStr "<=") t fc = Ret false) /\
    (_evaluate_condition H fv (VStr "<") t fc = Ret true ->
     _evaluate_condition H fv (VStr "<=") t fc = Ret true /\
     _evaluate_condition H fv (VStr ">") t fc = Ret false /\
     _evaluate_condition H fv (VStr ">=") t fc = Ret false) /\
    (exists b,
       _evaluate_condition H fv (VStr "==") t fc = Ret b /\
       _evaluate_condition H fv (VStr "!=") t fc = Ret (negb b)).
Proof.
  intros fv t fc.
  destruct (comparison_bodies fv t fc) as (Hgt & Hlt & Hge & Hle).
  cbv zeta in Hgt, Hlt, Hge, Hle; rewrite Hgt, Hlt, Hge, Hle.
  split; [| split].
  - destruct (to_float H fv) as [a | e]; cbn [bind catch]; [| discriminate].
    destruct (to_float H t) as [b | e]; cbn [bind catch]; [| discriminate].
    intros E; injection E as E.
    rewrite (ltb_leb b a E), (ltb_not_ltb b a E), (ltb_not_leb b a E).
    repeat split; reflexivity.
  - destruct (to_float H fv) as [a | e]; cbn [bind catch]; [| discriminate].
    destruct (to_float H t) as [b | e]; cbn [bind catch]; [| discriminate].
    intros E; injection E as E.
    rewrite (ltb_leb a b E), (ltb_not_ltb a b E), (ltb_not_leb a b E).
    repeat split; reflexivity.
  - exists (py_eq fv t); split; reflexivity.
Qed.

Example comparisons_on_nan :
  let nan := VFloat PrimFloat.nan in
  _evaluate_condition H nan (VStr ">") (VInt 0) VNone = Ret false /\
  _evaluate_condition H nan (VStr "<=") (VInt 0) VNone = Ret false /\
  _evaluate_condition H nan (VStr "==") nan VNone = Ret false /\
  _evaluate_condition H nan (VStr "!=") nan VNone = Ret true.
Proof. repeat split; vm_compute; reflexivity. Qed.

Lemma collection_predicate_bodies (fv t fc : value) :
  _evaluate_condition H fv (VStr "all_false") t fc
  = (if py_truth fc
     then match fv with
          | VList l => catch (all_not_get fc l) (fun _ => Ret false)
          | _ => Ret false
          end
     else Ret false) /\
  _evaluate_condition H fv (VStr "none_true") t fc
  = (if py_truth fc
     then match fv with
          | VList l =>
              catch (b <- any_get fc l ;; Ret (negb b)) (fun _ => Ret false)
          | _ => Ret false
          end
     else Ret false).
Proof.
  unfold _evaluate_condition, evaluate_condition_body.
  cbn [op_is String.eqb Ascii.eqb Bool.eqb andb].
  destruct (py_truth fc); cbn [andb]; [| split; reflexivity].
  destruct fv; split; reflexivity.
Qed.

(** X13: on a field that resolves to no value, [>=], [<=], [count],
    [all_false] and [none_true] are unmatched for every target and
    [field_check], while [!=] matches every target but [None]: a missing
    field differs from any value. *)
Theorem absent_field_other_operators :
  forall t fc : value,
    _evaluate_condition H VNone (VStr ">=") t fc = Ret false /\
    _evaluate_condition H VNone (VStr "<=") t fc = Ret false /\
    _evaluate_condition H VNone (VStr "count") t fc = Ret false /\
    _evaluate_condition H VNone (VStr "all_false") t fc = Ret false /\
    _evaluate_condition H VNone (VStr "none_true") t fc = Ret false /\
    _evaluate_condition H VNone (VStr "!=") t fc
    = Ret match t with VNone => false | _ => true end.
Proof.
  intros t fc.
  destruct (collection_predicate_bodies VNone t fc) as [Hall Hnone].
  rewrite Hall, Hnone.
  repeat split; try reflexivity.
  - destruct (py_truth fc); reflexivity.
  - destruct (py_truth fc); reflexivity.
  - destruct t; reflexivity.
Qed.

Lemma all_not_get_true (fc : value) (l : list value) :
  all_not_get fc l = Ret true ->
  forallb is_dict l = true /\ any_get fc l = Ret false.
Proof.
  induction l as [| item rest IH]; [intros _; split; reflexivity |].
  cbn [all_not_get any_get forallb].
  destruct item; cbn [item_get bind is_dict andb]; try discriminate.
  destruct fc; cbn [bind]; try discriminate.
  unfold dict_get; destruct (dict_lookup d s) as [v |]; [| discriminate].
  destruct (py_truth v); cbn [negb]; [discriminate | exact IH].
Qed.

Lemma any_get_false (fc : value) (l : list value) :
  any_get fc l = Ret false -> forallb is_dict l = true.
Proof.
  induction l as [| item rest IH]; [intros _; reflexivity |].
  cbn [any_get forallb].
  destruct item; cbn [item_get bind is_dict andb]; try discriminate.
  destruct (match fc with
            | VStr s => Ret (dict_get d s (VBool false))
            | VList _ | VDict _ => Raise TypeError
            | _ => Ret (VBool false)
            end) as [v | e]; cbn [bind]; [| discriminate].
  destruct (py_truth v); [discriminate | exact IH].
Qed.

(** X15: a sequence that holds an element that is no mapping (a number, a
    text, a list, [None]) matches neither [all_false] nor [none_true],
    whatever the other elements hold, and the evaluation still returns. *)
Theorem sequence_with_non_mapping_unmatched :
  forall (l : list value) (t fc : value),
    forallb is_dict l = false ->
    _evaluate_condition H (VList l) (VStr "all_false") t fc = Ret false /\
    _evaluate_condition H (VList l) (VStr "none_true") t fc = Ret false.
Proof.
  intros l t fc Hmixed.
  destruct (collection_predicate_bodies (VList l) t fc) as [Hall Hnone].
  rewrite Hall, Hnone.
  destruct (py_truth fc); [| split; reflexivity].
  split.
  - destruct (all_not_get fc l) as [[|] | e] eqn:E; try reflexivity.
    rewrite (proj1 (all_not_get_true fc l E)) in Hmixed; discriminate Hmixed.
  - destruct (any_get fc l) as [[|] | e] eqn:E; try reflexivity.
    rewrite (any_get_false fc l E) in Hmixed; discriminate Hmixed.
Qed.

(** X16: whenever [all_false] matches, [none_true] with the same
    [field_check] matches too: [all_false] asks every element to hold the key
    with a falsy value, [none_true] only asks that no element holds it with a
    truthy one. *)
Theorem all_false_implies_none_true :
  forall fv t fc : value,
    _evaluate_condition H fv (VStr "all_false") t fc = Ret true ->
    _evaluate_condition H fv (VStr "none_true") t fc = Ret true.
Proof.
  intros fv t fc.
  destruct (collection_predicate_bodies fv t fc) as [Hall Hnone].
  rewrite Hall, Hnone.
  destruct (py_truth fc); [| discriminate].
  destruct fv; try discriminate.
  destruct (all_not_get fc l) as [[|] | e] eqn:E; cbn [catch];
    try discriminate.
  intros _; rewrite (proj2 (all_not_get_true fc l E)); reflexivity.
Qed.

(** The converse fails on an element without the key. *)
Example none_true_without_all_false :
  let hosts := VList [VDict [("host", VStr "a")]] in
  _evaluate_condition H hosts (VStr "none_true") VNone (VStr "is_reachable")
  = Ret true /\
  _evaluate_condition H hosts (VStr "all_false") VNone (VStr "is_reachable")
  = Ret false.
Proof. split; reflexivity. Qed.

End OperatorFacts.

Lemma sequence_with_non_mapping_unmatched_witness :
  forallb is_dict [VDict [("is_up", VBool false)]; VInt 0] = false /\
  _evaluate_condition ExampleHost.example_host
    (VList [VDict [("is_up", VBool false)]; VInt 0])
    (VStr "none_true") VNone (VStr "is_up") = Ret false.
Proof.
  split; [reflexivity |].
  exact (proj2 (sequence_with_non_mapping_unmatched ExampleHost.example_host
                  [VDict [("is_up", VBool false)]; VInt 0] VNone (VStr "is_up")
                  eq_refl)).
Defined.

Lemma all_false_implies_none_true_witness :
  _evaluate_condition ExampleHost.example_host
    (VList [VDict [("is_reachable", VBool false)]])
    (VStr "all_false") VNone (VStr "is_reachable") = Ret true /\
  _evaluate_condition ExampleHost.example_host
    (VList [VDict [("is_reachable", VBool false)]])
    (VStr "none_true") VNone (VStr "is_reachable") = Ret true.
Proof.
  split; [reflexivity |].
  exact (all_false_implies_none_true ExampleHost.example_host
           (VList [VDict [("is_reachable", VBool false)]]) VNone
           (VStr "is_reachable") eq_refl).
Defined.

(** ** Remote synchronisation *)

Section SyncFacts.

Variable H : host.

Lemma load_cached_replaces (self : RuleEngine)
    (cache : option (list rule_file)) :
  config (_load_cached_remote_rules H self cache) = config self /\
  builtin_rules (_load_cached_remote_rules H self cache) = builtin_rules self /\
  remote_rules (_load_cached_remote_rules H self cache)
  = match cache with
    | Some rule_files => List.concat (map (load_rule_file H []) rule_files)
    | None => remote_rules self
    end.
Proof.
  destruct cache as [rule_files |]; cbn [_load_cached_remote_rules config
    builtin_rules remote_rules]; repeat split.
  rewrite load_all_acc; reflexivity.
Qed.

Lemma fetch_keeps_engine (self : EngineState) (w : sync_world) :
  engine (fst (_fetch_remote_rules self w)) = engine self /\
  snd (_fetch_remote_rules self w) = snd (run_git w (fetch_command self w)).
Proof.
  unfold _fetch_remote_rules.
  destruct (run_git w (fetch_command self w)) as [[code | e] cache];
    cbn [fst snd]; [| split; reflexivity].
  destruct (code =? 0); split; reflexivity.
Qed.

(** X17: a remote load leaves the configuration and the built-in rules as
    they are; when the repository directory exists at the time of the load,
    the remote rules become the rules parsed from its files, none of the
    former remote rules being kept, whether the fetch succeeded, failed or
    was not due; when the directory does not exist they stay as they
    were. *)
Theorem remote_load_replaces_rules :
  forall (self : EngineState) (w : sync_world) (due : bool),
    _should_update_remote_rules self (clock_check w) = Ret due ->
    let cache :=
      if due then snd (run_git w (fetch_command self w)) else cache_before w in
    let after := _load_remote_rules H self w in
    config (engine after) = config (engine self) /\
    builtin_rules (engine after) = builtin_rules (engine self) /\
    remote_rules (engine after)
    = match cache with
      | Some rule_files => List.concat (map (load_rule_file H []) rule_files)
      | None => remote_rules (engine self)
      end.
Proof.
  intros self w due Hdue; cbv zeta; unfold _load_remote_rules; rewrite Hdue.
  destruct due.
  - destruct (fetch_keeps_engine self w) as [Heng Hcache].
    destruct (_fetch_remote_rules self w) as [fetched cache];
      cbn [fst snd engine] in *; subst cache.
    rewrite <- Heng; apply load_cached_replaces.
  - cbn [engine]; apply load_cached_replaces.
Qed.

Lemma zero_seconds_not_above (interval : Z) :
  0 <= interval ->
  (seconds <- total_seconds 0 ;;
   Ret (num_gt (NFloat seconds) (NInt interval))) = Ret false.
Proof.
  intros Hpos.
  replace (total_seconds 0) with (Ret 0%float) by reflexivity.
  cbn [bind num_gt]; f_equal.
  replace (Z_compare_float interval 0) with (Some (interval ?= 0))
    by reflexivity.
  destruct (interval ?= 0) eqn:E; try reflexivity.
  exfalso; rewrite Z.compare_lt_iff in E; lia.
Qed.

(** X18: on an engine that never fetched, a load always tries to fetch; if
    git fails (an exception, or an exit code other than 0) no time is
    recorded, so the next load tries again whatever the interval; if git
    succeeds the time of the fetch is recorded, and with an interval that is
    not negative no new fetch is due at that same instant. *)
Theorem failed_fetch_is_retried :
  forall (self : EngineState) (w : sync_world),
    _last_remote_update self = None ->
    let after := _load_remote_rules H self w in
    (fst (run_git w (fetch_command self w)) <> Ret 0 ->
     _last_remote_update after = None /\
     forall now, _should_update_remote_rules after now = Ret true) /\
    (fst (run_git w (fetch_command self w)) = Ret 0 ->
     _last_remote_update after = Some (clock_fetch w) /\
     (0 <= rules_update_interval (config (engine self)) ->
      _should_update_remote_rules after (clock_fetch w) = Ret false)).
Proof.
  intros self w Hnever; cbv zeta.
  assert (Hdue : _should_update_remote_rules self (clock_check w) = Ret true)
    by (unfold _should_update_remote_rules; rewrite Hnever; reflexivity).
  unfold _load_remote_rules; rewrite Hdue; unfold _fetch_remote_rules.
  destruct (run_git w (fetch_command self w)) as [[code | e] cache];
    cbn [fst snd _last_remote_update].
  - destruct (Z.eqb_spec code 0) as [-> | Hcode];
      cbn [_last_remote_update engine].
    + split; [intros Hne; now elim Hne |].
      intros _; split; [reflexivity |].
      intros Hpos; unfold _should_update_remote_rules;
        cbn [_last_remote_update engine].
      rewrite Z.sub_diag.
      rewrite (proj1 (load_cached_replaces (engine self) cache)).
      apply zero_seconds_not_above, Hpos.
    + split.
      * intros _; split; [exact Hnever |].
        intros now; unfold _should_update_remote_rules;
          cbn [_last_remote_update]; rewrite Hnever; reflexivity.
      * intros E; injection E as E; now elim Hcode.
  - split.
    + intros _; split; [exact Hnever |].
      intros now; unfold _should_update_remote_rules;
        cbn [_last_remote_update]; rewrite Hnever; reflexivity.
    + discriminate.
Qed.

End SyncFacts.

Lemma remote_load_replaces_rules_witness :
  _should_update_remote_rules (RuleEngine_init Examples.default_config)
    (clock_check offline_world) = Ret true /\
  map Rule.rule_id
      (remote_rules
         (engine (_load_remote_rules ExampleHost.example_host
                    (RuleEngine_init Examples.default_config) offline_world)))
  = ["a"].
Proof.
  split; [reflexivity |].
  rewrite (proj2 (proj2 (remote_load_replaces_rules ExampleHost.example_host
                           (RuleEngine_init Examples.default_config)
                           offline_world true eq_refl))).
  vm_compute; reflexivity.
Defined.

Lemma failed_fetch_is_retried_witness :
  _last_remote_update (RuleEngine_init Examples.default_config) = None /\
  _last_remote_update
    (_load_remote_rules ExampleHost.example_host
       (RuleEngine_init Examples.default_config) offline_world) = None.
Proof.
  split; [reflexivity |].
  refine (proj1 (proj1 (failed_fetch_is_retried ExampleHost.example_host
                          (RuleEngine_init Examples.default_config)
                          offline_world eq_refl) _)).
  discriminate.
Defined.

(** ** Rules without conditions *)

(** X19: a rule without conditions matches on every snapshot: whenever it
    returns a result, the result is matched, has no evidence, and lists one
    description for each of its actions; and it does return whenever none of
    its actions is a [create_issue]. *)
Theorem rule_without_conditions_matches :
  forall (H : host) (self : RuleEngine) (rule : Rule.t) (snapshot : value),
    Rule.conditions rule = [] ->
    (forall r,
       _execute_single_rule H self rule snapshot = Ret r ->
       RuleExecutionResult.matched r = true /\
       RuleExecutionResult.evidence r = [] /\
       List.length (RuleExecutionResult.actions_taken r)
       = List.length (Rule.actions rule)) /\
    (existsb is_create_issue (Rule.actions rule) = false ->
     exists r, _execute_single_rule H self rule snapshot = Ret r).
Proof.
  intros H self rule snapshot Hnone; split.
  - intros r Hr.
    destruct (execute_single_rule_inv H self rule snapshot r Hr)
      as (Hm & Hev & Hrun).
    rewrite Hnone in *; cbn [_check_conditions check_loop fst snd] in *.
    apply run_actions_ok in Hrun.
    destruct Hrun as (nt & ni & -> & _ & Hlen & _).
    repeat split; assumption.
  - intros Hc; unfold _execute_single_rule; rewrite Hnone.
    cbn [_check_conditions check_loop].
    destruct (run_actions_returns H rule [] (Rule.actions rule) Hc 0%nat [] [])
      as (done & ->).
    cbn [bind catch]; eexists; reflexivity.
Qed.

Lemma rule_without_conditions_matches_witness :
  Rule.conditions Examples.overconfident_rule = [] /\
  exists r,
    _execute_single_rule ExampleHost.example_host Examples.lenient_engine
      Examples.overconfident_rule (VDict []) = Ret r.
Proof.
  split; [reflexivity |].
  exact (proj2 (rule_without_conditions_matches ExampleHost.example_host
                  Examples.lenient_engine Examples.overconfident_rule
                  (VDict []) eq_refl) eq_refl).
Defined.
